(** * Solana Wallet Activity API: a shallow embedding and its properties

    The development follows the Python sources
      - [app/config.py]            constants and settings,
      - [app/services/solana.py]   the JSON-RPC client [SolanaClient],
      - [app/models/schemas.py]    the response models and their validators,
      - [app/routers/wallet.py]    the two wallet routes.

    Python values that come out of [response.json()] are modelled by the
    type [json]; a Python [str] is a [string] whose elements stand for its
    characters.  Exceptions are values of type [exn]; a computation that
    talks to the RPC endpoint is a function from the list of requests
    posted so far to an outcome and the extended list. *)

From Stdlib Require Import ZArith List String Ascii Bool Lia.
From Stdlib Require Import DecimalString.
From Stdlib Require Import Floats.SpecFloat.
Import ListNotations.

Local Open Scope string_scope.
Local Open Scope Z_scope.

Set Warnings "-register-all".

(** ** Values *)

(** What [json.loads] produces: [None], [bool], [int], [float], [str],
    [list] and [dict] (a dict is kept as its list of items). *)
Inductive json : Type :=
| JNull
| JBool (b : bool)
| JInt (z : Z)
| JFloat (f : spec_float)
| JStr (s : string)
| JList (l : list json)
| JObj (items : list (string * json)).

(** Python's truth value, as used by [if x], [not x] and [x or y]. *)
Definition truthy (v : json) : bool :=
  match v with
  | JNull => false
  | JBool b => b
  | JInt z => negb (z =? 0)
  | JFloat (S754_zero _) => false
  | JFloat _ => true
  | JStr s => negb (String.eqb s "")
  | JList l => match l with [] => false | _ => true end
  | JObj items => match items with [] => false | _ => true end
  end.

(** [type(v).__name__] *)
Definition type_name (v : json) : string :=
  match v with
  | JNull => "NoneType"
  | JBool _ => "bool"
  | JInt _ => "int"
  | JFloat _ => "float"
  | JStr _ => "str"
  | JList _ => "list"
  | JObj _ => "dict"
  end.

(** Lookup of a key among the items of a dict. *)
Fixpoint dict_get (items : list (string * json)) (key : string) : option json :=
  match items with
  | [] => None
  | (k, v) :: rest => if String.eqb k key then Some v else dict_get rest key
  end.

(** ** Exceptions *)

(** The exception classes the program raises or meets.  All of them derive
    from [Exception].  In httpx, [TimeoutException] derives from
    [RequestError] (through [TransportError]), while [HTTPStatusError],
    raised by [raise_for_status], derives from [HTTPError] only and is not
    a [RequestError]. *)
Inductive exn : Type :=
| SolanaRPCError (msg : string)
| HTTPException (status_code : Z) (detail : string)
| TimeoutException (msg : string)
| RequestError (msg : string)
| HTTPStatusError (msg : string)
| PyError (cls : string) (msg : string).

(** [str(n)] for an [int]. *)
Definition str_of_Z (z : Z) : string := NilZero.string_of_int (Z.to_int z).

(** [str(e)]; for an [HTTPException] it is the status, a colon and the
    detail. *)
Definition exn_str (e : exn) : string :=
  match e with
  | SolanaRPCError msg => msg
  | HTTPException status_code detail => str_of_Z status_code ++ ": " ++ detail
  | TimeoutException msg => msg
  | RequestError msg => msg
  | HTTPStatusError msg => msg
  | PyError _ msg => msg
  end.

Definition is_SolanaRPCError (e : exn) : bool :=
  match e with SolanaRPCError _ => true | _ => false end.

Definition is_HTTPException (e : exn) : bool :=
  match e with HTTPException _ _ => true | _ => false end.

Inductive outcome (A : Type) : Type :=
| Ok (a : A)
| Raise (e : exn).
Arguments Ok {A} a.
Arguments Raise {A} e.

Definition AttributeError (v : json) (attr : string) : exn :=
  PyError "AttributeError"
    ("'" ++ type_name v ++ "' object has no attribute '" ++ attr ++ "'").

Definition TypeError (msg : string) : exn := PyError "TypeError" msg.

(** [o.get(key, default)]: only a dict has the method. *)
Definition py_get (o : json) (key : string) (default : json) : outcome json :=
  match o with
  | JObj items =>
      Ok (match dict_get items key with Some v => v | None => default end)
  | _ => Raise (AttributeError o "get")
  end.

Definition len_str (s : string) : Z := Z.of_nat (String.length s).

(** [sub in s] for two strings. *)
Fixpoint str_contains (sub s : string) : bool :=
  if String.prefix sub s then true
  else match s with
       | EmptyString => false
       | String _ rest => str_contains sub rest
       end.

Definition json_is_str (key : string) (v : json) : bool :=
  match v with JStr s => String.eqb s key | _ => false end.

(** [key in data] for a string [key]. *)
Definition py_in (key : string) (data : json) : outcome bool :=
  match data with
  | JObj items =>
      Ok (match dict_get items key with Some _ => true | None => false end)
  | JList l => Ok (existsb (json_is_str key) l)
  | JStr s => Ok (str_contains key s)
  | _ => Raise (TypeError ("argument of type '" ++ type_name data
                             ++ "' is not iterable"))
  end.

(** [len(v)] *)
Definition py_len (v : json) : outcome Z :=
  match v with
  | JStr s => Ok (len_str s)
  | JList l => Ok (Z.of_nat (List.length l))
  | JObj items => Ok (Z.of_nat (List.length items))
  | _ => Raise (TypeError ("object of type '" ++ type_name v
                             ++ "' has no len()"))
  end.

(** The elements a [for] loop visits. *)
Definition py_iter (v : json) : outcome (list json) :=
  match v with
  | JList l => Ok l
  | JStr s => Ok (map (fun c => JStr (String c EmptyString)) (list_ascii_of_string s))
  | JObj items => Ok (map (fun kv => JStr (fst kv)) items)
  | _ => Raise (TypeError ("'" ++ type_name v ++ "' object is not iterable"))
  end.

(** [v[0]] *)
Definition py_index0 (v : json) : outcome json :=
  match v with
  | JList (x :: _) => Ok x
  | JList [] => Raise (PyError "IndexError" "list index out of range")
  | JStr (String c _) => Ok (JStr (String c EmptyString))
  | JStr EmptyString => Raise (PyError "IndexError" "string index out of range")
  | JObj _ => Raise (PyError "KeyError" "0")
  | _ => Raise (TypeError ("'" ++ type_name v ++ "' object is not subscriptable"))
  end.

(** ** app/config.py *)

Definition LAMPORTS_PER_SOL : Z := 1000000000.
Definition MAX_TRANSACTION_LIMIT : Z := 1000.
Definition DEFAULT_TRANSACTION_LIMIT : Z := 10.

Record Settings : Type := {
  solana_rpc_url : string;
  api_timeout : Z;
  max_retries : Z
}.

Definition default_settings : Settings :=
  {| solana_rpc_url := "https://api.mainnet-beta.solana.com";
     api_timeout := 30;
     max_retries := 3 |}.

(** ** The RPC endpoint *)

(** The body of a request: [{"jsonrpc": "2.0", "id": 1, "method": m,
    "params": ps}]; the two constant members are left out. *)
Record payload : Type := { method : string; params : list json }.

(** What one [client.post] followed by [raise_for_status] and
    [response.json()] comes to. *)
Inductive attempt : Type :=
| Timeout (msg : string)      (* [post] raises httpx.TimeoutException *)
| ConnFail (msg : string)     (* [post] raises another httpx.RequestError *)
| BadStatus (msg : string)    (* 4xx/5xx: [raise_for_status] raises HTTPStatusError *)
| BadJson (msg : string)      (* 2xx, body not JSON: [json()] raises JSONDecodeError *)
| Body (data : json).         (* 2xx with a JSON body *)

Definition rpc_request (method : string) (params : list json) : payload :=
  {| method := method; params := params |}.

(** The requests posted so far, oldest first. *)
Definition history : Type := list payload.

(** The endpoint: its answer may depend on everything posted before. *)
Definition network : Type := history -> payload -> attempt.

(** ** Computations *)

Definition M (A : Type) : Type := history -> outcome A * history.

Definition ret {A} (a : A) : M A := fun h => (Ok a, h).

Definition raise {A} (e : exn) : M A := fun h => (Raise e, h).

Definition bind {A B} (c : M A) (k : A -> M B) : M B :=
  fun h =>
    match c h with
    | (Ok a, h') => k a h'
    | (Raise e, h') => (Raise e, h')
    end.

(** A computation without requests. *)
Definition lift {A} (o : outcome A) : M A := fun h => (o, h).

(** [try: c  except <classes accepted by sel> as e: handler e] *)
Definition try_except {A} (c : M A) (sel : exn -> bool) (handler : exn -> M A) : M A :=
  fun h =>
    match c h with
    | (Ok a, h') => (Ok a, h')
    | (Raise e, h') => if sel e then handler e h' else (Raise e, h')
    end.

Declare Scope py_scope.
Delimit Scope py_scope with py.
Notation "x <- c ;; k" := (bind c (fun x => k))
  (at level 100, c at next level, right associativity) : py_scope.
Local Open Scope py_scope.

Definition obind {A B} (o : outcome A) (k : A -> outcome B) : outcome B :=
  match o with
  | Ok a => k a
  | Raise e => Raise e
  end.

(** ** app/services/solana.py *)

(** An aware UTC [datetime]: an instant, in microseconds since the epoch. *)
Record datetime : Type := { unix_micros : Z }.

(** What the interpreter and the pydantic library contribute and the
    sources do not fix. *)
Record Runtime : Type := {
  (** [str(v)] of a float, a list or a dict, as an f-string formats it *)
  repr_compound : json -> string;
  (** [int(v)] for an argument that is not already an [int] *)
  int_other : json -> outcome Z;
  (** [datetime.fromtimestamp(v, tz=timezone.utc)] *)
  fromtimestamp : json -> outcome datetime;
  (** [round(x, ndigits)] on a float *)
  py_round : spec_float -> Z -> spec_float;
  (** pydantic's conversion to an [int] field of a value that is not an [int] *)
  coerce_int : json -> option Z;
  (** [str(e)] of the ValidationError of a model, given the fields that
      failed and their inputs *)
  validation_text : string -> list (string * json) -> string
}.

Section SolanaClient.

Variable rt : Runtime.
Variable settings : Settings.
Variable net : network.

(** [str(v)] *)
Definition py_str (v : json) : string :=
  match v with
  | JStr s => s
  | JNull => "None"
  | JBool true => "True"
  | JBool false => "False"
  | JInt z => str_of_Z z
  | _ => repr_compound rt v
  end.

(** [int(v)] *)
Definition py_int (v : json) : outcome Z :=
  match v with
  | JInt z => Ok z
  | _ => int_other rt v
  end.

(** Lines 69-77 of [_call_rpc]: what is done with the decoded body. *)
Definition read_body (data : json) : outcome json :=
  obind (py_in "error" data) (fun has_error =>
    if has_error then
      obind (py_get data "error" (JObj [])) (fun err =>
      obind (py_get err "message" (JStr "Unknown error")) (fun error_msg =>
        Raise (SolanaRPCError ("RPC error: " ++ py_str error_msg))))
    else py_get data "result" JNull).

(** The [while retry_count < self.max_retries] loop of [_call_rpc].
    [fuel] bounds the number of iterations; [rpc_loop_fuel] below shows
    that [Z.to_nat (max_retries - retry_count)] is always enough. *)
Fixpoint rpc_loop (fuel : nat) (retry_count : Z) (p : payload) (h : history)
  : outcome json * history :=
  match fuel with
  | O => (Raise (SolanaRPCError "Max retries exceeded"), h)
  | S fuel' =>
      if retry_count <? max_retries settings then
        let h' := (h ++ [p])%list in
        match net h p with
        | Body data => (read_body data, h')
        | BadJson msg => (Raise (PyError "JSONDecodeError" msg), h')
        | BadStatus msg => (Raise (HTTPStatusError msg), h')
        | Timeout _ =>
            let retry_count := retry_count + 1 in
            if retry_count >=? max_retries settings then
              (Raise (SolanaRPCError
                        ("RPC request timed out after "
                           ++ str_of_Z (max_retries settings) ++ " retries")), h')
            else rpc_loop fuel' retry_count p h'
        | ConnFail msg =>
            let retry_count := retry_count + 1 in
            if retry_count >=? max_retries settings then
              (Raise (SolanaRPCError ("RPC request failed: " ++ msg)), h')
            else rpc_loop fuel' retry_count p h'
        end
      else (Raise (SolanaRPCError "Max retries exceeded"), h)
  end.

Definition _call_rpc (method : string) (params : list json) : M json :=
  rpc_loop (Z.to_nat (max_retries settings)) 0 (rpc_request method params).

(** The two handlers that close every public method:
    [except SolanaRPCError: raise] and
    [except Exception as e: raise SolanaRPCError(f"<what>: {str(e)}")]. *)
Definition reraise_as_rpc_error {A} (what : string) (c : M A) : M A :=
  try_except c (fun e => negb (is_SolanaRPCError e))
    (fun e => raise (SolanaRPCError (what ++ ": " ++ exn_str e))).

Definition get_balance (address : string) : M Z :=
  if String.eqb address "" then
    raise (SolanaRPCError "Address cannot be empty")
  else
    reraise_as_rpc_error "Failed to fetch balance"
      (result <- _call_rpc "getBalance" [JStr address] ;;
       match result with
       | JNull => ret 0
       | JObj _ => lift (obind (py_get result "value" (JInt 0)) py_int)
       | _ => lift (py_int result)
       end).

Definition get_transaction_count (address : string) : M Z :=
  if String.eqb address "" then
    raise (SolanaRPCError "Address cannot be empty")
  else
    reraise_as_rpc_error "Failed to fetch transaction count"
      (signatures <- _call_rpc "getSignaturesForAddress"
                       [JStr address; JObj [("limit", JInt 1000)]] ;;
       if truthy signatures then lift (py_len signatures) else ret 0).

Definition get_signatures (address : string) (limit : Z) : M json :=
  if String.eqb address "" then
    raise (SolanaRPCError "Address cannot be empty")
  else if (limit <? 1) || (limit >? 1000) then
    raise (SolanaRPCError "Limit must be between 1 and 1000")
  else
    reraise_as_rpc_error "Failed to fetch signatures"
      (result <- _call_rpc "getSignaturesForAddress"
                   [JStr address; JObj [("limit", JInt limit)]] ;;
       ret (if truthy result then result else JList [])).

Definition get_transaction_details (signature : json) : M json :=
  if negb (truthy signature) then
    raise (SolanaRPCError "Signature cannot be empty")
  else
    reraise_as_rpc_error "Failed to fetch transaction"
      (_call_rpc "getTransaction"
         [signature; JObj [("encoding", JStr "json")]]).

(** [timestamp_to_datetime] *)
Definition timestamp_to_datetime (timestamp : json) : outcome (option datetime) :=
  match timestamp with
  | JNull => Ok None
  | _ => obind (fromtimestamp rt timestamp) (fun d => Ok (Some d))
  end.

End SolanaClient.

(** ** Floating point: [int / int]

    Python's true division of two integers is the exact quotient rounded
    once to binary64 (round to nearest, ties to even); a quotient too
    large for a float raises [OverflowError]. *)

Definition prec : Z := 53.
Definition emax : Z := 1024.

Definition float_of_int (z : Z) : spec_float :=
  match z with
  | Z0 => S754_zero false
  | Zpos m => S754_finite false m 0
  | Zneg m => S754_finite true m 0
  end.

Definition py_truediv (a b : Z) : outcome spec_float :=
  if b =? 0 then Raise (PyError "ZeroDivisionError" "division by zero")
  else
    match SFdiv prec emax (float_of_int a) (float_of_int b) with
    | S754_infinity _ =>
        Raise (PyError "OverflowError"
                 "integer division result too large for a float")
    | q => Ok q
    end.

(** [lamports_to_sol]: [return lamports / LAMPORTS_PER_SOL] *)
Definition lamports_to_sol (lamports : Z) : outcome spec_float :=
  py_truediv lamports LAMPORTS_PER_SOL.

(** The value of a decimal literal [n / 10^k], such as [1.42]: the nearest
    binary64 number. *)
Definition float_literal (n : Z) (k : Z) : spec_float :=
  SFdiv prec emax (float_of_int n) (float_of_int (10 ^ k)).

(** [x == y] on floats *)
Definition float_eq (x y : spec_float) : bool := SFeqb x y.

(** ** app/models/schemas.py *)

Record WalletSummary : Type := {
  summary_address : string;
  balance : spec_float;
  balance_lamports : Z;
  tx_count : Z;
  last_active : option datetime
}.

Record Transaction : Type := {
  signature : string;
  block_time : datetime;
  slot : Z;
  status : string;
  fee : Z
}.

Record TransactionList : Type := {
  address : string;
  transactions : list Transaction;
  count : Z
}.

Definition base58_chars : string :=
  "123456789ABCDEFGHJKLMNPQRSTUVWXYZabcdefghijkmnopqrstuvwxyz".

Definition ValueError (msg : string) : exn := PyError "ValueError" msg.

(** [all(c in base58_chars for c in v)] *)
Definition all_base58 (v : string) : bool :=
  forallb (fun c => str_contains (String c EmptyString) base58_chars)
          (list_ascii_of_string v).

(** The [validate_address] field validator, the same in [WalletSummary]
    and in [TransactionList]. *)
Definition validate_address (v : string) : outcome string :=
  if String.eqb v "" then
    Raise (ValueError "Address cannot be empty")
  else if (len_str v <? 32) || (len_str v >? 44) then
    Raise (ValueError ("Invalid Solana address length: " ++ str_of_Z (len_str v)
                         ++ ". Expected 32-44 characters"))
  else if negb (all_base58 v) then
    Raise (ValueError "Invalid Solana address: contains non-base58 characters")
  else Ok v.

Section Schemas.

Variable rt : Runtime.

Definition ValidationError (model : string) (failed : list (string * json)) : exn :=
  PyError "ValidationError" (validation_text rt model failed).

(** [WalletSummary(address=..., balance=..., balance_lamports=...,
    tx_count=..., last_active=...)]; the route passes a float, two ints
    and an optional datetime, so only [address] can be refused. *)
Definition new_WalletSummary (address : string) (balance : spec_float)
    (balance_lamports tx_count : Z) (last_active : option datetime)
  : outcome WalletSummary :=
  match validate_address address with
  | Ok v =>
      Ok {| summary_address := v; balance := balance;
            balance_lamports := balance_lamports; tx_count := tx_count;
            last_active := last_active |}
  | Raise _ => Raise (ValidationError "WalletSummary" [("address", JStr address)])
  end.

(** [TransactionList(address=..., transactions=..., count=...)] *)
Definition new_TransactionList (address : string)
    (transactions : list Transaction) (count : Z) : outcome TransactionList :=
  match validate_address address with
  | Ok v => Ok {| address := v; transactions := transactions; count := count |}
  | Raise _ => Raise (ValidationError "TransactionList" [("address", JStr address)])
  end.

(** A [str] field takes a [str] only. *)
Definition validate_str (v : json) : option string :=
  match v with JStr s => Some s | _ => None end.

(** An [int] field takes an [int] as it is. *)
Definition validate_int (v : json) : option Z :=
  match v with JInt z => Some z | _ => coerce_int rt v end.

Definition failed_field {A} (name : string) (input : json) (r : option A)
  : list (string * json) :=
  match r with Some _ => [] | None => [(name, input)] end.

(** [Transaction(signature=..., block_time=..., slot=..., status=...,
    fee=...)]; [block_time] is a datetime and [status] a str already. *)
Definition new_Transaction (signature : json) (block_time : datetime)
    (slot : json) (status : string) (fee : json) : outcome Transaction :=
  match validate_str signature, validate_int slot, validate_int fee with
  | Some sg, Some sl, Some f =>
      Ok {| signature := sg; block_time := block_time; slot := sl;
            status := status; fee := f |}
  | r1, r2, r3 =>
      Raise (ValidationError "Transaction"
               (failed_field "signature" signature r1
                  ++ failed_field "slot" slot r2
                  ++ failed_field "fee" fee r3)%list)
  end.

End Schemas.

(** ** app/routers/wallet.py *)

Section WalletRouter.

Variable rt : Runtime.
Variable settings : Settings.
Variable net : network.

(** The three handlers that close both routes. *)
Definition route_errors {A} (c : M A) : M A :=
  try_except c (fun _ => true)
    (fun e =>
       match e with
       | SolanaRPCError msg =>
           raise (HTTPException 503 ("Solana RPC error: " ++ msg))
       | HTTPException _ _ => raise e
       | _ => raise (HTTPException 500 ("Internal server error: " ++ exn_str e))
       end).

(** The address check that opens both routes. *)
Definition address_rejected (address : string) : bool :=
  String.eqb address "" || (len_str address <? 32) || (len_str address >? 44).

Definition invalid_address (address : string) : exn :=
  HTTPException 400
    ("Invalid Solana address. Address must be 32-44 characters, got "
       ++ str_of_Z (len_str address)).

(** Lines 58-62 of [get_wallet_summary]. *)
Definition summary_last_active (signatures : json) : outcome (option datetime) :=
  obind (if truthy signatures
         then obind (py_len signatures) (fun n => Ok (n >? 0))
         else Ok false)
    (fun nonempty =>
       if nonempty then
         obind (py_index0 signatures) (fun first =>
         obind (py_get first "blockTime" JNull) (fun block_time =>
           if truthy block_time then timestamp_to_datetime rt block_time
           else Ok None))
       else Ok None).

Definition get_wallet_summary (address : string) : M WalletSummary :=
  if address_rejected address then raise (invalid_address address)
  else
    route_errors
      (balance_lamports <- get_balance rt settings net address ;;
       signatures <- get_signatures rt settings net address 1 ;;
       tx_count <- get_transaction_count rt settings net address ;;
       last_active <- lift (summary_last_active signatures) ;;
       balance_sol <- lift (lamports_to_sol balance_lamports) ;;
       lift (new_WalletSummary rt address (py_round rt balance_sol 9)
               balance_lamports tx_count last_active)).

(** Lines 148-170: from the details of one signature to its record. *)
Definition build_transaction (sig_data signature tx_details : json)
  : outcome Transaction :=
  obind (py_get tx_details "meta" (JObj [])) (fun meta =>
  obind (if truthy meta then py_get meta "fee" (JInt 0) else Ok (JInt 0)) (fun fee =>
  obind (if truthy meta then py_get meta "err" JNull else Ok JNull) (fun err =>
  let status := if truthy err then "failed" else "success" in
  obind (py_get sig_data "blockTime" JNull) (fun block_time =>
  obind (timestamp_to_datetime rt block_time) (fun block_time_dt =>
  obind (py_get sig_data "slot" (JInt 0)) (fun slot =>
  obind (match block_time_dt with
         | Some d => Ok (Some d)
         | None => timestamp_to_datetime rt (JInt 0)
         end) (fun block_time_arg =>
    match block_time_arg with
    | Some d => new_Transaction rt signature d slot status fee
    | None => Raise (ValidationError rt "Transaction" [("block_time", JNull)])
    end))))))).

(** The body of the [try] inside the loop (lines 139-171): [Some t] when
    a record is appended, [None] on [continue]. *)
Definition entry_body (sig_data : json) : M (option Transaction) :=
  signature <- lift (py_get sig_data "signature" JNull) ;;
  if negb (truthy signature) then ret None
  else
    tx_details <- get_transaction_details rt settings net signature ;;
    match tx_details with
    | JNull => ret None
    | _ =>
        t <- lift (build_transaction sig_data signature tx_details) ;;
        ret (Some t)
    end.

(** One iteration: the [try] and its [except Exception] handler, which
    formats [sig_data.get('signature')] for the log and continues. *)
Definition process_entry (sig_data : json) : M (option Transaction) :=
  try_except (entry_body sig_data) (fun _ => true)
    (fun _ =>
       _ <- lift (py_get sig_data "signature" JNull) ;;
       ret None).

(** The [for sig_data in signatures] loop, appending to [transactions]. *)
Fixpoint process_entries (entries : list json) (transactions : list Transaction)
  : M (list Transaction) :=
  match entries with
  | [] => ret transactions
  | sig_data :: rest =>
      r <- process_entry sig_data ;;
      process_entries rest
        (match r with
         | Some t => (transactions ++ [t])%list
         | None => transactions
         end)
  end.

Definition get_wallet_transactions (address : string) (limit : Z)
  : M TransactionList :=
  if address_rejected address then raise (invalid_address address)
  else
    route_errors
      (signatures <- get_signatures rt settings net address limit ;;
       if negb (truthy signatures) then
         lift (new_TransactionList rt address [] 0)
       else
         entries <- lift (py_iter signatures) ;;
         transactions <- process_entries entries [] ;;
         lift (new_TransactionList rt address transactions
                 (Z.of_nat (List.length transactions)))).

End WalletRouter.

(** ** Vocabulary of the properties *)

(** The attempts the transport tries again: the two [except] clauses. *)
Definition transport_failure (a : attempt) : bool :=
  match a with
  | Timeout _ | ConnFail _ => true
  | _ => false
  end.

(** The message of the error raised after a last failed attempt. *)
Definition terminal_message (max : Z) (a : attempt) : string :=
  match a with
  | ConnFail msg => "RPC request failed: " ++ msg
  | _ => "RPC request timed out after " ++ str_of_Z max ++ " retries"
  end.

Definition is_dict (v : json) : bool :=
  match v with JObj _ => true | _ => false end.

(** An entry's [try] body ended by appending a record. *)
Definition appended (r : outcome (option Transaction)) : bool :=
  match r with Ok (Some _) => true | _ => false end.

(** The records appended, in the order of their entries. *)
Fixpoint survivors (outs : list (outcome (option Transaction))) : list Transaction :=
  match outs with
  | [] => []
  | Ok (Some t) :: rest => t :: survivors rest
  | _ :: rest => survivors rest
  end.

(** How the [try] body of each entry ends when the entries are visited in
    order, each starting from the requests posted by those before it, and
    the requests posted in the end. *)
Fixpoint run_entries (rt : Runtime) (settings : Settings) (net : network)
    (entries : list json) (h : history)
  : list (outcome (option Transaction)) * history :=
  match entries with
  | [] => ([], h)
  | sig_data :: rest =>
      let (r, h1) := entry_body rt settings net sig_data h in
      let (rs, hf) := run_entries rt settings net rest h1 in
      (r :: rs, hf)
  end.

(** The details carry a ["meta"] dict whose ["err"] is a true value. *)
Definition err_truthy (tx_details : json) : bool :=
  match tx_details with
  | JObj items =>
      match dict_get items "meta" with
      | Some (JObj meta) =>
          match dict_get meta "err" with
          | Some e => truthy e
          | None => false
          end
      | _ => false
      end
  | _ => false
  end.

(** The details carry a ["meta"] dict with an ["err"] that is not null. *)
Definition err_non_null (tx_details : json) : bool :=
  match tx_details with
  | JObj items =>
      match dict_get items "meta" with
      | Some (JObj meta) =>
          match dict_get meta "err" with
          | Some JNull | None => false
          | Some _ => true
          end
      | _ => false
      end
  | _ => false
  end.

(** ** Concrete runtimes and endpoints *)

(** A plain runtime: an [int] is taken as it is, as a number of seconds
    or as the value of an [int] field; every other conversion is refused. *)
Definition plain_runtime : Runtime :=
  {| repr_compound := fun _ => "<value>";
     int_other := fun v => Raise (TypeError ("int() cannot convert '" ++ type_name v ++ "'"));
     fromtimestamp := fun v =>
       match v with
       | JInt z => Ok {| unix_micros := z * 1000000 |}
       | _ => Raise (TypeError ("'" ++ type_name v ++ "' object cannot be interpreted as an integer"))
       end;
     py_round := fun x _ => x;
     coerce_int := fun _ => None;
     validation_text := fun model _ => "validation error for " ++ model |}.

(** An endpoint that answers every request with a 503 status. *)
Definition always_503 : network :=
  fun _ _ => BadStatus "Server error '503 Service Unavailable'".

(** An endpoint that never answers in time. *)
Definition always_timeout : network := fun _ _ => Timeout "timed out".

Definition example_address : string :=
  "7xKXtg2CW87d97TXJSDpbD5jBkheTqA83TZRuJosgAsU".

(** The example address with its first character replaced by a zero: 44
    characters, one of them outside the base58 alphabet. *)
Definition zero_address : string :=
  "0xKXtg2CW87d97TXJSDpbD5jBkheTqA83TZRuJosgAsU".

Definition rpc_result (v : json) : attempt :=
  Body (JObj [("jsonrpc", JStr "2.0"); ("result", v); ("id", JInt 1)]).

Definition rpc_error_body (code : Z) (message : string) : json :=
  JObj [("jsonrpc", JStr "2.0");
        ("error", JObj [("code", JInt code); ("message", JStr message)]);
        ("id", JInt 1)].

Definition rpc_error (code : Z) (message : string) : attempt :=
  Body (rpc_error_body code message).

Definition signature_entry (sg : string) (slot : Z) (block_time : json) : json :=
  JObj [("signature", JStr sg); ("slot", JInt slot); ("err", JNull);
        ("blockTime", block_time)].

(** The ["limit"] a [getSignaturesForAddress] request carries. *)
Definition limit_of (p : payload) : Z :=
  match params p with
  | [_; JObj [(_, JInt n)]] => n
  | _ => 0
  end.

(** The first parameter of a request, when it is a string. *)
Definition first_param (p : payload) : string :=
  match params p with
  | JStr s :: _ => s
  | _ => ""
  end.

(** A wallet that holds nothing and never signed anything. *)
Definition quiet_chain : network :=
  fun _ p =>
    if String.eqb (method p) "getBalance" then
      rpc_result (JObj [("context", JObj [("slot", JInt 1)]); ("value", JInt 0)])
    else rpc_result (JList []).

(** The wallet of the end-to-end example: 1.42 SOL, a most recent
    signature at 1768000000, and 37 signatures under the limit of 1000. *)
Definition example_chain : network :=
  fun _ p =>
    if String.eqb (method p) "getBalance" then
      rpc_result (JObj [("context", JObj [("slot", JInt 1)]);
                        ("value", JInt 1420000000)])
    else if String.eqb (method p) "getSignaturesForAddress" then
      if limit_of p =? 1 then
        rpc_result (JList [signature_entry "S1" 1 (JInt 1768000000)])
      else rpc_result (JList (repeat (signature_entry "S1" 1 (JInt 1768000000)) 37))
    else rpc_result JNull.

(** A wallet whose most recent signature has a block time of 0. *)
Definition dormant_chain : network :=
  fun _ p =>
    if String.eqb (method p) "getBalance" then
      rpc_result (JObj [("value", JInt 5000)])
    else rpc_result (JList [signature_entry "S1" 1 (JInt 0)]).

Definition plain_details : json :=
  JObj [("slot", JInt 1); ("meta", JObj [("err", JNull); ("fee", JInt 5000)])].

(** Three signatures; the details of the second cannot be fetched. *)
Definition flaky_chain : network :=
  fun _ p =>
    if String.eqb (method p) "getSignaturesForAddress" then
      rpc_result (JList [signature_entry "S1" 3 (JInt 1768000000);
                         signature_entry "S2" 2 (JInt 1767000000);
                         signature_entry "S3" 1 JNull])
    else if String.eqb (method p) "getTransaction" then
      if String.eqb (first_param p) "S2" then rpc_error (-32000) "node is behind"
      else rpc_result plain_details
    else rpc_result JNull.

(** An endpoint that refuses every request at the protocol level. *)
Definition refusing_chain : network :=
  fun _ _ => rpc_error (-32602) "Invalid param: WrongSize".

(** Details whose ["err"] is an empty object: present and not null. *)
Definition details_with_empty_err : json :=
  JObj [("meta", JObj [("err", JObj []); ("fee", JInt 5000)])].

(** Details of a transaction that failed on chain. *)
Definition details_with_err : json :=
  JObj [("meta", JObj [("err", JObj [("InstructionError",
                                      JList [JInt 0; JObj [("Custom", JInt 1)]])]);
                       ("fee", JInt 5000)])].

(** The failures C2 counts among those tried again. *)
Definition claimed_failure (a : attempt) : bool :=
  match a with
  | Timeout _ | ConnFail _ | BadStatus _ => true
  | _ => false
  end.

(** What C2 promises of a call: [max_retries] posts, then a [SolanaRPCError]. *)
Definition exhausts_retries (rt : Runtime) (settings : Settings) (net : network)
    (method : string) (params : list json) (h : history) : Prop :=
  exists msg h',
    _call_rpc rt settings net method params h = (Raise (SolanaRPCError msg), h')
    /\ Z.of_nat (List.length h') = Z.of_nat (List.length h) + max_retries settings.

(** ** app/main.py *)

Record JSONResponse : Type := { response_status : Z; content : json }.

(** [http_exception_handler]: the handler registered for [HTTPException]. *)
Definition http_exception_handler (status_code : Z) (detail : string) : JSONResponse :=
  {| response_status := status_code; content := JObj [("error", JStr detail)] |}.

(** [general_exception_handler]: the handler registered for [Exception]. *)
Definition general_exception_handler (exc : exn) : JSONResponse :=
  {| response_status := 500; content := JObj [("error", JStr "Internal server error")] |}.

(** The handler the application picks for an exception that leaves a
    route: the one registered for the nearest class. *)
Definition handle_exception (e : exn) : JSONResponse :=
  match e with
  | HTTPException status_code detail => http_exception_handler status_code detail
  | _ => general_exception_handler e
  end.

(** ** Further vocabulary *)

(** An ASCII letter or digit. *)
Definition is_alnum (c : ascii) : bool :=
  let n := nat_of_ascii c in
  ((48 <=? n) && (n <=? 57) || (65 <=? n) && (n <=? 90)
   || (97 <=? n) && (n <=? 122))%nat.

(** One of the four characters base58 leaves out: [0], [O], [I], [l]. *)
Definition is_ambiguous (c : ascii) : bool :=
  existsb (Ascii.eqb c) (list_ascii_of_string "0OIl").

(** The details request the loop posts for an entry. *)
Definition details_request (signature : json) : payload :=
  rpc_request "getTransaction" [signature; JObj [("encoding", JStr "json")]].

(** The requests of the two signature lookups and of the balance lookup. *)
Definition signatures_request (address : string) (limit : Z) : payload :=
  rpc_request "getSignaturesForAddress" [JStr address; JObj [("limit", JInt limit)]].

Definition balance_request (address : string) : payload :=
  rpc_request "getBalance" [JStr address].

(** The value under ["signature"] of an entry, [None] for a missing one. *)
Definition entry_signature (sig_data : json) : json :=
  match sig_data with
  | JObj items =>
      match dict_get items "signature" with Some v => v | None => JNull end
  | _ => JNull
  end.

(** What goes wrong for one entry, started after the requests [h] and
    leaving the requests [h']: the fetch of its details raises, or the
    details come back as [None], or the details are there and building
    the record from them raises. *)
Definition entry_detail_fails (rt : Runtime) (settings : Settings) (net : network)
    (sig_data : json) (h h' : history) : Prop :=
  (exists e,
     get_transaction_details rt settings net (entry_signature sig_data) h
     = (Raise e, h'))
  \/ get_transaction_details rt settings net (entry_signature sig_data) h
     = (Ok JNull, h')
  \/ (exists d e,
        get_transaction_details rt settings net (entry_signature sig_data) h
        = (Ok d, h')
        /\ d <> JNull
        /\ build_transaction rt sig_data (entry_signature sig_data) d = Raise e).

(** The details requests of the entries that carry a signature, in order. *)
Definition details_requests (entries : list json) : list payload :=
  map (fun sig_data => details_request (entry_signature sig_data))
      (filter (fun sig_data => truthy (entry_signature sig_data)) entries).

(** An endpoint whose first answer comes too late and that answers the
    balance of the example wallet afterwards. *)
Definition slow_start_chain : network :=
  fun h p =>
    match h with
    | [] => Timeout "timed out"
    | _ => example_chain h p
    end.

(** An endpoint that answers with a body that is not JSON. *)
Definition garbled_chain : network := fun _ _ => BadJson "Expecting value".

(** Settings that allow no attempt at all. *)
Definition no_retry_settings : Settings :=
  {| solana_rpc_url := "https://api.mainnet-beta.solana.com";
     api_timeout := 30;
     max_retries := 0 |}.

(** Two signatures around an entry that is not a dict. *)
Definition malformed_chain : network :=
  fun _ p =>
    if String.eqb (method p) "getSignaturesForAddress" then
      rpc_result (JList [signature_entry "S1" 3 (JInt 1768000000);
                         JStr "S2";
                         signature_entry "S3" 1 JNull])
    else rpc_result plain_details.

(** * Properties *)

Section TransportProperties.

Variable rt : Runtime.
Variable settings : Settings.
Variable net : network.

(** The fuel never decides: any amount above the number of iterations
    the loop condition allows gives the same run. *)
Lemma rpc_loop_fuel (fuel : nat) :
  forall retry_count p h,
    (Z.to_nat (max_retries settings - retry_count) <= fuel)%nat ->
    rpc_loop rt settings net fuel retry_count p h
    = rpc_loop rt settings net
        (Z.to_nat (max_retries settings - retry_count)) retry_count p h.
Proof.
  induction fuel as [|fuel IH]; intros rc p h Hle.
  - replace (Z.to_nat (max_retries settings - rc)) with O by lia. reflexivity.
  - destruct (Z.ltb_spec rc (max_retries settings)) as [Hlt|Hge].
    + replace (Z.to_nat (max_retries settings - rc))
        with (S (Z.to_nat (max_retries settings - (rc + 1)))) by lia.
      cbn [rpc_loop].
      destruct (rc <? max_retries settings); [|reflexivity].
      destruct (net h p); try reflexivity;
        destruct (rc + 1 >=? max_retries settings); try reflexivity;
        rewrite IH by lia; reflexivity.
    + replace (Z.to_nat (max_retries settings - rc)) with O by lia.
      cbn. destruct (Z.ltb_spec rc (max_retries settings)); [lia | reflexivity].
Qed.

Lemma history_snoc_repeat (h : history) (p : payload) (k : nat) :
  ((h ++ [p]) ++ repeat p k = h ++ repeat p (S k))%list.
Proof. rewrite <- app_assoc. reflexivity. Qed.

(** [k] failed attempts that leave room for another one are [k] turns of
    the loop, each posting the same request once. *)
Lemma rpc_loop_skip (p : payload) (k : nat) :
  forall fuel retry_count h,
    (forall j, (j < k)%nat ->
       transport_failure (net (h ++ repeat p j)%list p) = true) ->
    retry_count + Z.of_nat k < max_retries settings ->
    rpc_loop rt settings net (k + fuel) retry_count p h
    = rpc_loop rt settings net fuel (retry_count + Z.of_nat k) p
        (h ++ repeat p k)%list.
Proof.
  induction k as [|k IH]; intros fuel rc h Hfail Hlt.
  - cbn [repeat Nat.add]. rewrite app_nil_r, Z.add_0_r. reflexivity.
  - cbn [Nat.add rpc_loop].
    destruct (Z.ltb_spec rc (max_retries settings)) as [_|?]; [|lia].
    assert (H0 := Hfail O ltac:(lia)). cbn [repeat] in H0.
    rewrite app_nil_r in H0.
    assert (Hnext : forall j, (j < k)%nat ->
              transport_failure (net ((h ++ [p]) ++ repeat p j)%list p) = true).
    { intros j Hj. rewrite history_snoc_repeat. apply Hfail. lia. }
    destruct (net h p); try discriminate H0;
      (destruct (Z.geb_spec (rc + 1) (max_retries settings)) as [?|_]; [lia|]);
      rewrite IH by (assumption || lia);
      rewrite history_snoc_repeat;
      f_equal; lia.
Qed.

(** When the last attempt the loop allows fails too, the call ends with a
    [SolanaRPCError] that tells how. *)
Lemma rpc_loop_last_failure (p : payload) (fuel : nat) (retry_count : Z) (h : history) :
  retry_count + 1 = max_retries settings ->
  transport_failure (net h p) = true ->
  rpc_loop rt settings net (S fuel) retry_count p h
  = (Raise (SolanaRPCError (terminal_message (max_retries settings) (net h p))),
     (h ++ [p])%list).
Proof.
  intros Hlast Hfail. cbn [rpc_loop].
  destruct (Z.ltb_spec retry_count (max_retries settings)) as [_|?]; [|lia].
  destruct (net h p); try discriminate Hfail;
    (destruct (Z.geb_spec (retry_count + 1) (max_retries settings)) as [_|?]; [|lia]);
    reflexivity.
Qed.

(** A 2xx answer ends the call at once, whatever its body. *)
Lemma rpc_loop_body (p : payload) (fuel : nat) (retry_count : Z) (h : history) data :
  retry_count < max_retries settings ->
  net h p = Body data ->
  rpc_loop rt settings net (S fuel) retry_count p h
  = (read_body rt data, (h ++ [p])%list).
Proof.
  intros Hlt Hnet. cbn [rpc_loop]. rewrite Hnet.
  destruct (Z.ltb_spec retry_count (max_retries settings)); [reflexivity | lia].
Qed.

(** Failed attempts followed by a 2xx answer: the call ends with that
    answer, one post after the failures. *)
Lemma call_rpc_answer (method : string) (params : list json) (h : history)
    (k : nat) (data : json) :
  (k < Z.to_nat (max_retries settings))%nat ->
  (forall j, (j < k)%nat ->
     transport_failure
       (net (h ++ repeat (rpc_request method params) j)%list
            (rpc_request method params)) = true) ->
  net (h ++ repeat (rpc_request method params) k)%list (rpc_request method params)
  = Body data ->
  _call_rpc rt settings net method params h
  = (read_body rt data, (h ++ repeat (rpc_request method params) (S k))%list).
Proof.
  intros Hk Hfail Hnet. unfold _call_rpc.
  replace (Z.to_nat (max_retries settings))
    with (k + S (Z.to_nat (max_retries settings) - S k))%nat by lia.
  rewrite rpc_loop_skip by (assumption || lia).
  rewrite (rpc_loop_body _ _ _ _ data) by (assumption || lia).
  rewrite <- app_assoc, <- repeat_cons. reflexivity.
Qed.

(** A non-2xx answer ends the call as well: the [HTTPStatusError] of
    [raise_for_status] passes both [except] clauses. *)
Lemma call_rpc_bad_status (method : string) (params : list json) (h : history)
    (k : nat) (msg : string) :
  (k < Z.to_nat (max_retries settings))%nat ->
  (forall j, (j < k)%nat ->
     transport_failure
       (net (h ++ repeat (rpc_request method params) j)%list
            (rpc_request method params)) = true) ->
  net (h ++ repeat (rpc_request method params) k)%list (rpc_request method params)
  = BadStatus msg ->
  _call_rpc rt settings net method params h
  = (Raise (HTTPStatusError msg),
     (h ++ repeat (rpc_request method params) (S k))%list).
Proof.
  intros Hk Hfail Hnet. unfold _call_rpc.
  replace (Z.to_nat (max_retries settings))
    with (k + S (Z.to_nat (max_retries settings) - S k))%nat by lia.
  rewrite rpc_loop_skip by (assumption || lia).
  cbn [rpc_loop]. rewrite Hnet.
  destruct (Z.ltb_spec (0 + Z.of_nat k) (max_retries settings)); [|lia].
  rewrite <- app_assoc, <- repeat_cons. reflexivity.
Qed.

(** X23. The part of the retry policy the loop implements: when every
    attempt of a call ends in a timeout or in another
    [httpx.RequestError], the transport posts the request exactly
    [max_retries] times, one after the other and nothing in between, and
    then raises a [SolanaRPCError]: its message is that of the last
    attempt (timed out after [max_retries] retries, or the request
    failure and its text), or "Max retries exceeded" when [max_retries]
    is 0 and nothing was posted. *)
Theorem call_rpc_exhausts_retries (method : string) (params : list json) (h : history) :
  0 <= max_retries settings ->
  (forall j, (j < Z.to_nat (max_retries settings))%nat ->
     transport_failure
       (net (h ++ repeat (rpc_request method params) j)%list
            (rpc_request method params)) = true) ->
  exists msg h',
    _call_rpc rt settings net method params h = (Raise (SolanaRPCError msg), h')
    /\ h' = (h ++ repeat (rpc_request method params)
                   (Z.to_nat (max_retries settings)))%list
    /\ Z.of_nat (List.length h') = Z.of_nat (List.length h) + max_retries settings
    /\ (max_retries settings = 0 /\ msg = "Max retries exceeded"
        \/ 0 < max_retries settings /\
           msg = terminal_message (max_retries settings)
                   (net (h ++ repeat (rpc_request method params)
                                (Z.to_nat (max_retries settings) - 1))%list
                        (rpc_request method params))).
Proof.
  intros Hpos Hfail. unfold _call_rpc.
  set (p := rpc_request method params) in *.
  assert (Hlen : Z.of_nat (List.length (h ++ repeat p (Z.to_nat (max_retries settings))))
                 = Z.of_nat (List.length h) + max_retries settings).
  { rewrite length_app, repeat_length. lia. }
  destruct (Z.to_nat (max_retries settings)) as [|k] eqn:Hk.
  - exists "Max retries exceeded", (h ++ [])%list. cbn [rpc_loop repeat].
    rewrite app_nil_r. repeat split; try assumption.
    + rewrite app_nil_r in Hlen. assumption.
    + left. split; [lia | reflexivity].
  - replace (S k) with (k + 1)%nat in * by lia.
    rewrite rpc_loop_skip by (intros; try apply Hfail; lia).
    rewrite Z.add_0_l.
    assert (Hlast : transport_failure (net (h ++ repeat p k)%list p) = true)
      by (apply Hfail; lia).
    rewrite rpc_loop_last_failure by (assumption || lia).
    do 2 eexists. split; [reflexivity|]. split; [|split].
    + rewrite <- app_assoc.
      replace (k + 1)%nat with (S k) by lia.
      rewrite <- repeat_cons. reflexivity.
    + rewrite length_app in *. cbn [List.length]. rewrite length_app, repeat_length in *. lia.
    + right. split; [lia|].
      replace (k + 1 - 1)%nat with k by lia. reflexivity.
Qed.

(** A body with an ["error"] member never leads to a result. *)
Lemma read_body_error_raises (data : json) :
  py_in "error" data = Ok true -> exists e, read_body rt data = Raise e.
Proof.
  intros Hin. unfold read_body. rewrite Hin. cbn [obind].
  destruct (py_get data "error" (JObj [])) as [err|e]; cbn [obind]; [|eauto].
  destruct (py_get err "message" (JStr "Unknown error")); cbn [obind]; eauto.
Qed.

(** C5. A 2xx answer whose JSON body has an ["error"] member ends the
    call on the spot: the request is not posted again, and the call
    raises.  With the error object of a JSON-RPC reply [{"error":
    {"message": ...}}] what is raised is [SolanaRPCError("RPC error: " +
    message)], the message being "Unknown error" when the object has
    none.  This holds for the first attempt and for an answer that comes
    after earlier attempts failed. *)
Theorem call_rpc_error_not_retried (method : string) (params : list json)
    (h : history) (k : nat) (data : json) :
  (k < Z.to_nat (max_retries settings))%nat ->
  (forall j, (j < k)%nat ->
     transport_failure
       (net (h ++ repeat (rpc_request method params) j)%list
            (rpc_request method params)) = true) ->
  net (h ++ repeat (rpc_request method params) k)%list (rpc_request method params)
  = Body data ->
  py_in "error" data = Ok true ->
  (exists e,
     _call_rpc rt settings net method params h
     = (Raise e, (h ++ repeat (rpc_request method params) (S k))%list))
  /\ (forall items err,
        data = JObj items ->
        dict_get items "error" = Some (JObj err) ->
        _call_rpc rt settings net method params h
        = (Raise (SolanaRPCError
                    ("RPC error: "
                       ++ py_str rt (match dict_get err "message" with
                                     | Some m => m
                                     | None => JStr "Unknown error"
                                     end))),
           (h ++ repeat (rpc_request method params) (S k))%list)).
Proof.
  intros Hk Hfail Hnet Hin.
  rewrite (call_rpc_answer method params h k data Hk Hfail Hnet).
  split.
  - destruct (read_body_error_raises data Hin) as [e He]. exists e. rewrite He. reflexivity.
  - intros items err -> Herr. unfold read_body.
    cbn [py_in py_get obind]. rewrite Herr. cbn [obind py_get]. reflexivity.
Qed.

End TransportProperties.

(** ** Runs of composed computations *)

Lemma bind_ok_inv {A B} (c : M A) (k : A -> M B) (h hf : history) (b : B) :
  bind c k h = (Ok b, hf) ->
  exists a h1, c h = (Ok a, h1) /\ k a h1 = (Ok b, hf).
Proof.
  unfold bind. destruct (c h) as [[a|e] h1]; intros H; [eauto | discriminate].
Qed.

Lemma bind_ok {A B} (c : M A) (k : A -> M B) (h h1 : history) (a : A) :
  c h = (Ok a, h1) -> bind c k h = k a h1.
Proof. unfold bind. intros ->. reflexivity. Qed.

Lemma bind_raise {A B} (c : M A) (k : A -> M B) (h h1 : history) (e : exn) :
  c h = (Raise e, h1) -> bind c k h = (Raise e, h1).
Proof. unfold bind. intros ->. reflexivity. Qed.

Lemma lift_ok_inv {A} (o : outcome A) (h hf : history) (a : A) :
  lift o h = (Ok a, hf) -> o = Ok a /\ hf = h.
Proof. unfold lift. intros H. inversion H. auto. Qed.

Lemma try_except_ok {A} (c : M A) sel handler (h h1 : history) (a : A) :
  c h = (Ok a, h1) -> try_except c sel handler h = (Ok a, h1).
Proof. unfold try_except. intros ->. reflexivity. Qed.

(** A handler that only raises lets no result through but the body's. *)
Lemma try_except_ok_inv {A} (c : M A) sel handler (h hf : history) (a : A) :
  (forall e h1, exists e', handler e h1 = (Raise e', h1)) ->
  try_except c sel handler h = (Ok a, hf) ->
  c h = (Ok a, hf).
Proof.
  intros Hraise. unfold try_except.
  destruct (c h) as [[a'|e] h1]; [auto|].
  destruct (sel e); [|discriminate].
  destruct (Hraise e h1) as [e' ->]. discriminate.
Qed.

Section ClientProperties.

Variable rt : Runtime.
Variable settings : Settings.
Variable net : network.

Lemma reraise_ok {A} (what : string) (c : M A) (h h1 : history) (a : A) :
  c h = (Ok a, h1) -> reraise_as_rpc_error what c h = (Ok a, h1).
Proof. apply try_except_ok. Qed.

Lemma reraise_ok_inv {A} (what : string) (c : M A) (h hf : history) (a : A) :
  reraise_as_rpc_error what c h = (Ok a, hf) -> c h = (Ok a, hf).
Proof.
  apply try_except_ok_inv. intros e h1. eexists. reflexivity.
Qed.

(** Whatever goes wrong inside a public method of the client leaves it as
    a [SolanaRPCError]. *)
Lemma reraise_raises_rpc_error {A} (what : string) (c : M A) (h hf : history) (e : exn) :
  reraise_as_rpc_error what c h = (Raise e, hf) -> is_SolanaRPCError e = true.
Proof.
  unfold reraise_as_rpc_error, try_except.
  destruct (c h) as [[a|e0] h1]; [discriminate|].
  destruct e0; cbn; intros H; inversion H; reflexivity.
Qed.

(** C9. After a balance lookup that returned, [get_balance] returns too:
    0 for an absent result, 0 for a dict without ["value"], and for a
    dict with a ["value"] the integer [int] makes of it, which for an
    integer is the integer itself; no request is added to those of the
    lookup. *)
Theorem get_balance_result_shapes (address : string) (h h' : history) (result : json) :
  address <> "" ->
  _call_rpc rt settings net "getBalance" [JStr address] h = (Ok result, h') ->
  (result = JNull ->
   get_balance rt settings net address h = (Ok 0, h'))
  /\ (forall items, result = JObj items -> dict_get items "value" = None ->
      get_balance rt settings net address h = (Ok 0, h'))
  /\ (forall items v z, result = JObj items -> dict_get items "value" = Some v ->
      py_int rt v = Ok z ->
      get_balance rt settings net address h = (Ok z, h'))
  /\ (forall items z, result = JObj items -> dict_get items "value" = Some (JInt z) ->
      get_balance rt settings net address h = (Ok z, h')).
Proof.
  intros Hne Hcall. unfold get_balance.
  destruct (String.eqb_spec address "") as [?|_]; [contradiction|].
  assert (Hval : forall items v z, result = JObj items ->
            dict_get items "value" = Some v -> py_int rt v = Ok z ->
            reraise_as_rpc_error "Failed to fetch balance"
              (result <- _call_rpc rt settings net "getBalance" [JStr address] ;;
               match result with
               | JNull => ret 0
               | JObj _ => lift (obind (py_get result "value" (JInt 0)) (py_int rt))
               | _ => lift (py_int rt result)
               end) h = (Ok z, h')).
  { intros items v z -> Hv Hint. apply reraise_ok. rewrite (bind_ok _ _ _ _ _ Hcall).
    cbn [py_get obind lift]. rewrite Hv. cbn [obind]. rewrite Hint. reflexivity. }
  repeat split.
  - intros ->. apply reraise_ok. rewrite (bind_ok _ _ _ _ _ Hcall). reflexivity.
  - intros items -> Hnone. apply reraise_ok. rewrite (bind_ok _ _ _ _ _ Hcall).
    cbn. rewrite Hnone. reflexivity.
  - exact Hval.
  - intros items z Hres Hv. exact (Hval items (JInt z) z Hres Hv eq_refl).
Qed.

(** What [get_transaction_count] returns is read off the result of its one
    call. *)
Lemma get_transaction_count_inv (address : string) (h hf : history) (n : Z) :
  get_transaction_count rt settings net address h = (Ok n, hf) ->
  address <> "" /\
  exists result,
    _call_rpc rt settings net "getSignaturesForAddress"
      [JStr address; JObj [("limit", JInt 1000)]] h = (Ok result, hf)
    /\ (if truthy result then py_len result else Ok 0) = Ok n.
Proof.
  unfold get_transaction_count.
  destruct (String.eqb_spec address "") as [?|Hne]; [discriminate|].
  intros H. apply reraise_ok_inv in H.
  apply bind_ok_inv in H. destruct H as (result & h1 & Hcall & Hrest).
  split; [assumption|]. exists result.
  destruct (truthy result).
  - apply lift_ok_inv in Hrest. destruct Hrest as [Hlen ->]. auto.
  - inversion Hrest. subst. auto.
Qed.

End ClientProperties.

Lemma obind_ok_inv {A B} (o : outcome A) (k : A -> outcome B) (b : B) :
  obind o k = Ok b -> exists a, o = Ok a /\ k a = Ok b.
Proof. destruct o as [a|e]; cbn; intros H; [eauto | discriminate]. Qed.

(** An address the validator accepts passes the check of the routes. *)
Lemma validate_address_ok (a v : string) :
  validate_address a = Ok v ->
  v = a /\ a <> "" /\ 32 <= len_str a <= 44 /\ all_base58 a = true.
Proof.
  unfold validate_address.
  destruct (String.eqb_spec a "") as [|Hne]; [discriminate|].
  destruct (Z.ltb_spec (len_str a) 32) as [|Hlo]; [discriminate|].
  destruct (Z.gtb_spec (len_str a) 44) as [|Hhi]; [discriminate|].
  cbn [orb]. destruct (all_base58 a); cbn [negb]; [|discriminate].
  intros Heq. inversion Heq. subst v. repeat split; auto; lia.
Qed.

Lemma validated_not_rejected (a v : string) :
  validate_address a = Ok v -> address_rejected a = false.
Proof.
  intros Hv. apply validate_address_ok in Hv. destruct Hv as (_ & Hne & Hlen & _).
  unfold address_rejected.
  destruct (String.eqb_spec a ""); [contradiction|].
  destruct (Z.ltb_spec (len_str a) 32); [lia|].
  destruct (Z.gtb_spec (len_str a) 44); [lia|]. reflexivity.
Qed.

Section RouterProperties.

Variable rt : Runtime.
Variable settings : Settings.
Variable net : network.

Lemma route_errors_ok {A} (c : M A) (h h1 : history) (a : A) :
  c h = (Ok a, h1) -> route_errors c h = (Ok a, h1).
Proof. apply try_except_ok. Qed.

Lemma route_errors_ok_inv {A} (c : M A) (h hf : history) (a : A) :
  route_errors c h = (Ok a, hf) -> c h = (Ok a, hf).
Proof.
  apply try_except_ok_inv. intros e h1. destruct e; eexists; reflexivity.
Qed.

(** What a summary that was returned is made of. *)
Lemma get_wallet_summary_inv (address : string) (h hf : history) (s : WalletSummary) :
  get_wallet_summary rt settings net address h = (Ok s, hf) ->
  exists b h1 sigs h2 n la bs,
    get_balance rt settings net address h = (Ok b, h1)
    /\ get_signatures rt settings net address 1 h1 = (Ok sigs, h2)
    /\ get_transaction_count rt settings net address h2 = (Ok n, hf)
    /\ summary_last_active rt sigs = Ok la
    /\ lamports_to_sol b = Ok bs
    /\ s = {| summary_address := address; balance := py_round rt bs 9;
              balance_lamports := b; tx_count := n; last_active := la |}.
Proof.
  unfold get_wallet_summary.
  destruct (address_rejected address); [discriminate|].
  intros H. apply route_errors_ok_inv in H.
  apply bind_ok_inv in H. destruct H as (b & h1 & Hb & H).
  apply bind_ok_inv in H. destruct H as (sigs & h2 & Hs & H).
  apply bind_ok_inv in H. destruct H as (n & h3 & Hn & H).
  apply bind_ok_inv in H. destruct H as (la & h4 & Hla & H).
  apply bind_ok_inv in H. destruct H as (bs & h5 & Hbs & H).
  apply lift_ok_inv in Hla. destruct Hla as [Hla ->].
  apply lift_ok_inv in Hbs. destruct Hbs as [Hbs ->].
  apply lift_ok_inv in H. destruct H as [H ->].
  exists b, h1, sigs, h2, n, la, bs. repeat split; try assumption.
  unfold new_WalletSummary in H.
  destruct (validate_address address) as [v|e] eqn:Hv; [|discriminate].
  apply validate_address_ok in Hv. destruct Hv as [-> _].
  inversion H. reflexivity.
Qed.

(** C6. The [tx_count] of a summary is the length of the list that one
    [getSignaturesForAddress] call, sent with limit 1000, returned (0 if
    the result was empty or absent); an endpoint that keeps to the limit
    it is sent therefore never gives a count above 1000. *)
Theorem summary_tx_count_capped (address : string) (h hf : history) (s : WalletSummary) :
  get_wallet_summary rt settings net address h = (Ok s, hf) ->
  exists h2 result,
    _call_rpc rt settings net "getSignaturesForAddress"
      [JStr address; JObj [("limit", JInt 1000)]] h2 = (Ok result, hf)
    /\ (truthy result = false -> tx_count s = 0)
    /\ (forall l, result = JList l ->
          tx_count s = Z.of_nat (List.length l)
          /\ ((List.length l <= 1000)%nat -> 0 <= tx_count s <= 1000)).
Proof.
  intros H. apply get_wallet_summary_inv in H.
  destruct H as (b & h1 & sigs & h2 & n & la & bs & _ & _ & Hn & _ & _ & ->).
  apply get_transaction_count_inv in Hn. destruct Hn as (_ & result & Hcall & Hlen).
  exists h2, result. split; [assumption|]. cbn [tx_count]. split.
  - intros Hf. rewrite Hf in Hlen. inversion Hlen. reflexivity.
  - intros l ->. assert (n = Z.of_nat (List.length l)) as ->.
    { destruct l; cbn in Hlen; inversion Hlen; reflexivity. }
    split; [reflexivity | lia].
Qed.

(** C10. In a summary that was returned, [last_active] is absent when the
    one-item signature lookup gave no signature, and also when the first
    entry has no ["blockTime"], a null one, or 0. *)
Theorem summary_last_active_absent (address : string) (h hf : history) (s : WalletSummary) :
  get_wallet_summary rt settings net address h = (Ok s, hf) ->
  exists b h1 sigs h2,
    get_balance rt settings net address h = (Ok b, h1)
    /\ get_signatures rt settings net address 1 h1 = (Ok sigs, h2)
    /\ (sigs = JList [] -> last_active s = None)
    /\ (forall items rest,
          sigs = JList (JObj items :: rest) ->
          dict_get items "blockTime" = None
          \/ dict_get items "blockTime" = Some JNull
          \/ dict_get items "blockTime" = Some (JInt 0) ->
          last_active s = None).
Proof.
  intros H. apply get_wallet_summary_inv in H.
  destruct H as (b & h1 & sigs & h2 & n & la & bs & Hb & Hs & _ & Hla & _ & ->).
  exists b, h1, sigs, h2. repeat split; try assumption; cbn [last_active].
  - intros ->. cbn in Hla. inversion Hla. reflexivity.
  - intros items rest -> Hbt. unfold summary_last_active in Hla.
    cbn [truthy py_len obind py_index0 py_get] in Hla.
    replace (Z.of_nat (List.length (JObj items :: rest)) >? 0) with true in Hla
      by (symmetry; apply Z.gtb_lt; cbn [List.length]; lia).
    cbn [obind] in Hla.
    destruct Hbt as [Hbt|[Hbt|Hbt]]; rewrite Hbt in Hla; cbn in Hla;
      inversion Hla; reflexivity.
Qed.

(** C7. For an address the validator accepts, a signature lookup that
    comes back empty makes the transactions route return the empty list
    with count 0 at once: no request follows those of the lookup. *)
Theorem transactions_empty_without_details (address : string) (limit : Z)
    (h h1 : history) (sigs : json) :
  validate_address address = Ok address ->
  get_signatures rt settings net address limit h = (Ok sigs, h1) ->
  truthy sigs = false ->
  get_wallet_transactions rt settings net address limit h
  = (Ok {| address := address; transactions := []; count := 0 |}, h1).
Proof.
  intros Hv Hs Hf. unfold get_wallet_transactions.
  rewrite (validated_not_rejected _ _ Hv).
  apply route_errors_ok. rewrite (bind_ok _ _ _ _ _ Hs). rewrite Hf. cbn [negb].
  unfold lift, new_TransactionList. rewrite Hv. reflexivity.
Qed.

End RouterProperties.

(** ** The loop over the signature entries *)

Lemma survivors_app (o1 o2 : list (outcome (option Transaction))) :
  survivors (o1 ++ o2) = (survivors o1 ++ survivors o2)%list.
Proof.
  induction o1 as [|[[t|]|e] o1 IH]; cbn [survivors app]; rewrite ?IH; reflexivity.
Qed.

Lemma survivors_all_appended (outs : list (outcome (option Transaction))) :
  forallb appended outs = true -> List.length (survivors outs) = List.length outs.
Proof.
  induction outs as [|[[t|]|e] outs IH]; cbn; intros H;
    try discriminate; auto.
Qed.

Lemma run_entries_length rt settings net (entries : list json) :
  forall h, List.length (fst (run_entries rt settings net entries h)) = List.length entries.
Proof.
  induction entries as [|e entries IH]; intros h; cbn [run_entries]; [reflexivity|].
  destruct (entry_body rt settings net e h) as [r h1].
  specialize (IH h1). destruct (run_entries rt settings net entries h1) as [rs hf].
  cbn in *. rewrite IH. reflexivity.
Qed.

Section LoopProperties.

Variable rt : Runtime.
Variable settings : Settings.
Variable net : network.

(** On a dict entry the handler's own [sig_data.get] cannot fail, so an
    iteration always ends in an append or a [continue]. *)
Lemma process_entry_dict (items : list (string * json)) (h : history) :
  process_entry rt settings net (JObj items) h
  = (Ok (match fst (entry_body rt settings net (JObj items) h) with
         | Ok r => r
         | Raise _ => None
         end),
     snd (entry_body rt settings net (JObj items) h)).
Proof.
  unfold process_entry, try_except.
  destruct (entry_body rt settings net (JObj items) h) as [[r|e] h1]; reflexivity.
Qed.

Lemma process_entries_dicts (entries : list json) :
  forallb is_dict entries = true ->
  forall acc h,
    process_entries rt settings net entries acc h
    = (Ok (acc ++ survivors (fst (run_entries rt settings net entries h)))%list,
       snd (run_entries rt settings net entries h)).
Proof.
  induction entries as [|e entries IH]; intros Hd acc h.
  - cbn. rewrite app_nil_r. reflexivity.
  - cbn [forallb] in Hd. apply andb_prop in Hd. destruct Hd as [He Hd].
    destruct e; try discriminate He.
    cbn [process_entries run_entries]. unfold bind.
    rewrite process_entry_dict.
    destruct (entry_body rt settings net (JObj items) h) as [r h1]. cbn [fst snd].
    rewrite (IH Hd).
    destruct (run_entries rt settings net entries h1) as [rs hf]. cbn [fst snd].
    destruct r as [[t|]|err]; cbn [survivors]; try reflexivity.
    rewrite <- app_assoc. reflexivity.
Qed.

Lemma run_entries_app (l1 l2 : list json) :
  forall h,
    run_entries rt settings net (l1 ++ l2) h
    = (fst (run_entries rt settings net l1 h)
         ++ fst (run_entries rt settings net l2
                   (snd (run_entries rt settings net l1 h))),
       snd (run_entries rt settings net l2
              (snd (run_entries rt settings net l1 h))))%list.
Proof.
  induction l1 as [|sd l1 IH]; intros h.
  - cbn [app run_entries fst snd]. destruct (run_entries rt settings net l2 h).
    reflexivity.
  - cbn [app run_entries].
    destruct (entry_body rt settings net sd h) as [r h1].
    rewrite IH.
    destruct (run_entries rt settings net l1 h1) as [o1 h2]. cbn [fst snd].
    reflexivity.
Qed.

(** The [try] body of a dict entry that carries a signature, by what the
    fetch of its details gives. *)
Lemma entry_body_fetch (items : list (string * json)) (h : history) :
  truthy (entry_signature (JObj items)) = true ->
  entry_body rt settings net (JObj items) h
  = match get_transaction_details rt settings net (entry_signature (JObj items)) h with
    | (Raise e, h') => (Raise e, h')
    | (Ok JNull, h') => (Ok None, h')
    | (Ok d, h') =>
        (match build_transaction rt (JObj items) (entry_signature (JObj items)) d with
         | Ok t => Ok (Some t)
         | Raise e => Raise e
         end, h')
    end.
Proof.
  intros Ht. unfold entry_body. cbn [py_get]. unfold bind at 1. cbn [lift].
  change (match dict_get items "signature" with Some v => v | None => JNull end)
    with (entry_signature (JObj items)).
  rewrite Ht. cbn [negb]. unfold bind.
  destruct (get_transaction_details rt settings net (entry_signature (JObj items)) h)
    as [[d|e] h']; [|reflexivity].
  destruct d; try reflexivity;
    (unfold lift, ret;
     destruct (build_transaction rt (JObj items) (entry_signature (JObj items)) _);
     reflexivity).
Qed.

(** An entry whose details cannot be had leaves its [try] body without a
    record: by the exception, or by [continue] when they are [None]. *)
Lemma entry_detail_fails_body (items : list (string * json)) (h h' : history) :
  truthy (entry_signature (JObj items)) = true ->
  entry_detail_fails rt settings net (JObj items) h h' ->
  exists r,
    entry_body rt settings net (JObj items) h = (r, h')
    /\ appended r = false
    /\ (r = Ok None \/ exists e, r = Raise e).
Proof.
  intros Ht Hfail. rewrite (entry_body_fetch items h Ht).
  destruct Hfail as [(e & Hf)|[Hf|(d & e & Hf & Hd & Hb)]]; rewrite Hf.
  - exists (Raise e). repeat split. right. eauto.
  - exists (Ok None). repeat split. left. reflexivity.
  - rewrite Hb. exists (Raise e). split; [|split; [reflexivity | right; eauto]].
    destruct d; try reflexivity. contradiction.
Qed.

(** C3. The entries of a signature list are dicts ([List[Dict[str, Any]]],
    as [get_signatures] declares; an entry of another type stops the
    request in the handler of the loop).  For an address the validator
    accepts and a signature lookup that returned N such entries:

    - the transactions route returns; its list holds, in order, exactly
      the records of the entries whose processing ended in an append,
      and [count] is its length;
    - when exactly one entry is not appended and the others are, the
      list has N-1 records, those before and those after that entry;
    - in particular, when for one entry the fetch of the details raises,
      or the details come back as [None], or building the record from
      them raises, and the entries before and after it are appended, the
      route returns the records of those N-1 entries, in order, with
      [count] N-1, and goes on to fetch the details of the entries after
      the failing one;
    - such an entry ends its iteration of the loop with nothing appended
      and nothing raised: the error stays with the entry. *)
Theorem transactions_isolate_entry_errors (address : string) (limit : Z)
    (h h1 : history) (entries : list json) :
  validate_address address = Ok address ->
  get_signatures rt settings net address limit h = (Ok (JList entries), h1) ->
  forallb is_dict entries = true ->
  get_wallet_transactions rt settings net address limit h
  = (Ok {| address := address;
           transactions := survivors (fst (run_entries rt settings net entries h1));
           count := Z.of_nat (List.length
                      (survivors (fst (run_entries rt settings net entries h1)))) |},
     snd (run_entries rt settings net entries h1))
  /\ (forall o1 x o2,
        fst (run_entries rt settings net entries h1) = (o1 ++ x :: o2)%list ->
        forallb appended o1 = true ->
        forallb appended o2 = true ->
        appended x = false ->
        survivors (fst (run_entries rt settings net entries h1))
        = (survivors o1 ++ survivors o2)%list
        /\ Z.of_nat (List.length
                      (survivors (fst (run_entries rt settings net entries h1))))
           = Z.of_nat (List.length entries) - 1)
  /\ (forall before items after hb',
        entries = (before ++ JObj items :: after)%list ->
        forallb appended (fst (run_entries rt settings net before h1)) = true ->
        truthy (entry_signature (JObj items)) = true ->
        entry_detail_fails rt settings net (JObj items)
          (snd (run_entries rt settings net before h1)) hb' ->
        forallb appended (fst (run_entries rt settings net after hb')) = true ->
        get_wallet_transactions rt settings net address limit h
        = (Ok {| address := address;
                 transactions :=
                   (survivors (fst (run_entries rt settings net before h1))
                      ++ survivors (fst (run_entries rt settings net after hb')))%list;
                 count := Z.of_nat (List.length entries) - 1 |},
           snd (run_entries rt settings net after hb'))
        /\ List.length (survivors (fst (run_entries rt settings net before h1)))
           = List.length before
        /\ List.length (survivors (fst (run_entries rt settings net after hb')))
           = List.length after)
  /\ (forall items h0 h',
        truthy (entry_signature (JObj items)) = true ->
        entry_detail_fails rt settings net (JObj items) h0 h' ->
        process_entry rt settings net (JObj items) h0 = (Ok None, h')).
Proof.
  intros Hv Hs Hd.
  assert (Hrun :
    get_wallet_transactions rt settings net address limit h
    = (Ok {| address := address;
             transactions := survivors (fst (run_entries rt settings net entries h1));
             count := Z.of_nat (List.length
                        (survivors (fst (run_entries rt settings net entries h1)))) |},
       snd (run_entries rt settings net entries h1))).
  { unfold get_wallet_transactions.
    rewrite (validated_not_rejected _ _ Hv).
    apply try_except_ok. rewrite (bind_ok _ _ _ _ _ Hs).
    destruct entries as [|e entries'].
    + cbn [truthy negb]. unfold lift, new_TransactionList. rewrite Hv. reflexivity.
    + cbn [truthy negb py_iter]. unfold bind at 1. cbn [lift].
      unfold bind. rewrite (process_entries_dicts _ Hd). cbn [app].
      unfold lift, new_TransactionList. rewrite Hv. reflexivity. }
  split; [exact Hrun|]. split; [|split].
  - intros o1 x o2 Houts H1 H2 Hx.
    assert (Hlen := run_entries_length rt settings net entries h1).
    rewrite Houts in *. rewrite survivors_app.
    assert (Hsx : survivors (x :: o2) = survivors o2).
    { destruct x as [[t|]|e]; [discriminate Hx | reflexivity | reflexivity]. }
    rewrite Hsx. split; [reflexivity|].
    rewrite length_app, !survivors_all_appended by assumption.
    rewrite length_app in Hlen. cbn [List.length] in Hlen. lia.
  - intros before items after hb' -> Hb Ht Hfail Ha.
    destruct (entry_detail_fails_body items _ hb' Ht Hfail) as (r & Hbody & Hr & _).
    assert (Hlb := run_entries_length rt settings net before h1).
    assert (Hla := run_entries_length rt settings net after hb').
    rewrite <- (survivors_all_appended _ Hb) in Hlb.
    rewrite <- (survivors_all_appended _ Ha) in Hla.
    split; [|split; assumption].
    rewrite Hrun, run_entries_app. cbn [fst snd run_entries].
    rewrite Hbody.
    destruct (run_entries rt settings net after hb') as [oa hf]. cbn [fst snd] in *.
    rewrite survivors_app.
    assert (Hsx : survivors (r :: oa) = survivors oa).
    { destruct r as [[t|]|e]; [discriminate Hr | reflexivity | reflexivity]. }
    rewrite Hsx. do 3 f_equal.
    rewrite !length_app, Hlb, Hla. cbn [List.length]. lia.
  - intros items h0 h' Ht Hfail.
    destruct (entry_detail_fails_body items h0 h' Ht Hfail) as (r & Hbody & Hr & _).
    rewrite process_entry_dict, Hbody. cbn [fst snd].
    destruct r as [[t|]|e]; [discriminate Hr | reflexivity | reflexivity].
Qed.

Lemma new_Transaction_status (sg : json) (bt : datetime) (sl : json) (st : string)
    (f : json) (t : Transaction) :
  new_Transaction rt sg bt sl st f = Ok t -> status t = st.
Proof.
  unfold new_Transaction.
  destruct (validate_str sg), (validate_int rt sl), (validate_int rt f);
    intros H; inversion H; reflexivity.
Qed.

(** C4 (amended). Whenever a record is built from the details of a
    transaction, its status is "failed" exactly when the details carry a
    ["meta"] dict whose ["err"] is a true value (neither absent nor null,
    and not [False], 0, an empty string, list or dict), and "success"
    otherwise; it is "success" in particular when ["meta"] is missing. *)
Theorem status_follows_err_truth (sig_data sg tx_details : json) (t : Transaction) :
  build_transaction rt sig_data sg tx_details = Ok t ->
  (status t = "failed" <-> err_truthy tx_details = true)
  /\ (status t = "success" <-> err_truthy tx_details = false)
  /\ (forall items, tx_details = JObj items -> dict_get items "meta" = None ->
      status t = "success").
Proof.
  intros H. unfold build_transaction in H.
  apply obind_ok_inv in H. destruct H as (meta & Hmeta & H).
  apply obind_ok_inv in H. destruct H as (fee & Hfee & H).
  apply obind_ok_inv in H. destruct H as (err & Herr & H).
  cbv zeta in H.
  apply obind_ok_inv in H. destruct H as (bt & _ & H).
  apply obind_ok_inv in H. destruct H as (btd & _ & H).
  apply obind_ok_inv in H. destruct H as (sl & _ & H).
  apply obind_ok_inv in H. destruct H as (arg & _ & H).
  destruct arg as [d|]; [|discriminate].
  apply new_Transaction_status in H.
  assert (Hst : truthy err = err_truthy tx_details).
  { destruct tx_details; try discriminate Hmeta.
    cbn [py_get] in Hmeta. inversion Hmeta as [Hm]. clear Hmeta.
    cbn [err_truthy].
    destruct (dict_get items "meta") as [m|].
    - subst meta. destruct (truthy m) eqn:Htm.
      + destruct m; try discriminate Herr. cbn [py_get] in Herr.
        inversion Herr. destruct (dict_get items0 "err"); reflexivity.
      + inversion Herr. subst err. cbn [truthy].
        destruct m; try reflexivity.
        destruct items0; [reflexivity | discriminate Htm].
    - subst meta. cbn [truthy] in Herr. inversion Herr. reflexivity. }
  assert (Hmissing : forall items, tx_details = JObj items ->
            dict_get items "meta" = None -> truthy err = false).
  { intros items -> Hnone. cbn [err_truthy] in Hst. rewrite Hnone in Hst. exact Hst. }
  rewrite <- Hst, H.
  split; [|split].
  - destruct (truthy err); split; intros; (reflexivity || discriminate).
  - destruct (truthy err); split; intros; (reflexivity || discriminate).
  - intros items Hd Hnone. rewrite (Hmissing items Hd Hnone). reflexivity.
Qed.

End LoopProperties.

(** C8. [lamports_to_sol] is the division of its argument by 10^9 and
    nothing else; one billion lamports give the float 1.0 and 1420000000
    lamports give the float 1.42. *)
Theorem lamports_to_sol_divides :
  LAMPORTS_PER_SOL = 10 ^ 9
  /\ (forall lamports, lamports_to_sol lamports = py_truediv lamports (10 ^ 9))
  /\ (exists x,
        lamports_to_sol 1000000000 = Ok x
        /\ float_eq x (float_literal 10 1) = true
        /\ x = S754_finite false 4503599627370496 (-52))
  /\ (exists x,
        lamports_to_sol 1420000000 = Ok x
        /\ float_eq x (float_literal 142 2) = true
        /\ x = S754_finite false 6395111470866104 (-52)).
Proof.
  split; [reflexivity|]. split; [intros; reflexivity|].
  split; eexists; (split; [vm_compute; reflexivity|]);
    split; vm_compute; reflexivity.
Qed.

(** C1 (what the routes do instead). An address of 44 characters with a
    zero in it passes the check of both routes: the summary route posts
    its three requests and the transactions route its one, and only then
    does the address validator of the response model refuse the address,
    which the route reports with status 500. *)
Theorem alphabet_checked_after_rpc :
  validate_address zero_address
  = Raise (ValueError "Invalid Solana address: contains non-base58 characters")
  /\ get_wallet_summary plain_runtime default_settings quiet_chain zero_address []
     = (Raise (HTTPException 500
                 "Internal server error: validation error for WalletSummary"),
        [rpc_request "getBalance" [JStr zero_address];
         rpc_request "getSignaturesForAddress"
           [JStr zero_address; JObj [("limit", JInt 1)]];
         rpc_request "getSignaturesForAddress"
           [JStr zero_address; JObj [("limit", JInt 1000)]]])
  /\ get_wallet_transactions plain_runtime default_settings quiet_chain zero_address 10 []
     = (Raise (HTTPException 500
                 "Internal server error: validation error for TransactionList"),
        [rpc_request "getSignaturesForAddress"
           [JStr zero_address; JObj [("limit", JInt 10)]]]).
Proof.
  repeat split; vm_compute; reflexivity.
Qed.

(** The part of C1 that the routes do implement: an empty address, or one
    shorter than 32 or longer than 44 characters, is refused with status
    400 before anything is posted. *)
Lemma routes_reject_bad_length rt settings net (address : string) (limit : Z) (h : history) :
  len_str address < 32 \/ 44 < len_str address ->
  get_wallet_summary rt settings net address h
  = (Raise (invalid_address address), h)
  /\ get_wallet_transactions rt settings net address limit h
     = (Raise (invalid_address address), h).
Proof.
  intros Hlen. unfold get_wallet_summary, get_wallet_transactions.
  assert (address_rejected address = true) as ->; [|split; reflexivity].
  unfold address_rejected.
  destruct (Z.ltb_spec (len_str address) 32), (Z.gtb_spec (len_str address) 44);
    rewrite ?orb_true_r; try reflexivity; lia.
Qed.

(** An address the validator of the response models refuses never gets a
    result from either route, whatever its length: where the routes'
    own check lets it pass, the request ends in an error raised later. *)
Lemma refused_address_gets_no_result rt settings net (address : string) (limit : Z)
    (h : history) :
  (forall v, validate_address address <> Ok v) ->
  (forall s hf, get_wallet_summary rt settings net address h <> (Ok s, hf))
  /\ (forall r hf, get_wallet_transactions rt settings net address limit h <> (Ok r, hf)).
Proof.
  intros Hbad. split.
  - intros s hf Hrun. unfold get_wallet_summary in Hrun.
    destruct (address_rejected address); [discriminate|].
    apply try_except_ok_inv in Hrun;
      [|intros e h1; destruct e; eexists; reflexivity].
    apply bind_ok_inv in Hrun. destruct Hrun as (b & h1 & _ & Hrun).
    apply bind_ok_inv in Hrun. destruct Hrun as (sigs & h2 & _ & Hrun).
    apply bind_ok_inv in Hrun. destruct Hrun as (n & h3 & _ & Hrun).
    apply bind_ok_inv in Hrun. destruct Hrun as (la & h4 & _ & Hrun).
    apply bind_ok_inv in Hrun. destruct Hrun as (bs & h5 & _ & Hrun).
    apply lift_ok_inv in Hrun. destruct Hrun as [Hnew _].
    unfold new_WalletSummary in Hnew.
    destruct (validate_address address) as [v|e] eqn:Hv; [|discriminate].
    exact (Hbad v eq_refl).
  - intros r hf Hrun. unfold get_wallet_transactions in Hrun.
    destruct (address_rejected address); [discriminate|].
    apply try_except_ok_inv in Hrun;
      [|intros e h1; destruct e; eexists; reflexivity].
    apply bind_ok_inv in Hrun. destruct Hrun as (sigs & h1 & _ & Hrun).
    assert (Hnew : exists txs n, new_TransactionList rt address txs n = Ok r).
    { destruct (truthy sigs); cbn [negb] in Hrun.
      - apply bind_ok_inv in Hrun. destruct Hrun as (entries & h2 & _ & Hrun).
        apply bind_ok_inv in Hrun. destruct Hrun as (txs & h3 & _ & Hrun).
        apply lift_ok_inv in Hrun. destruct Hrun as [Hnew _]. eauto.
      - apply lift_ok_inv in Hrun. destruct Hrun as [Hnew _]. eauto. }
    destruct Hnew as (txs & n & Hnew). unfold new_TransactionList in Hnew.
    destruct (validate_address address) as [v|e] eqn:Hv; [|discriminate].
    exact (Hbad v eq_refl).
Qed.

(** ** Concrete runs *)

(** C2, where the code falls short of it.  A 503 answer is a failure
    of the kind the claim lists, and the default settings allow three
    attempts; yet the transport posts once, and what leaves it is the
    [HTTPStatusError] of [raise_for_status], which neither [except]
    clause of the loop catches, not the [SolanaRPCError] that the
    docstring of [_call_rpc] promises for a call that fails.  So the
    call does not make [max_retries] attempts and does not end in a
    [SolanaRPCError]. *)
Lemma bad_status_is_not_retried :
  (forall h p, claimed_failure (always_503 h p) = true)
  /\ max_retries default_settings = 3
  /\ _call_rpc plain_runtime default_settings always_503
       "getBalance" [JStr example_address] []
     = (Raise (HTTPStatusError "Server error '503 Service Unavailable'"),
        [rpc_request "getBalance" [JStr example_address]])
  /\ ~ exhausts_retries plain_runtime default_settings always_503
         "getBalance" [JStr example_address] [].
Proof.
  split; [reflexivity|]. split; [reflexivity|]. split; [reflexivity|].
  intros (msg & h' & Hrun & _). vm_compute in Hrun. discriminate Hrun.
Qed.

(** An endpoint that never answers in time, with the default settings. *)
Lemma call_rpc_exhausts_retries_witness :
  exists msg h',
    _call_rpc plain_runtime default_settings always_timeout
      "getBalance" [JStr example_address] []
    = (Raise (SolanaRPCError msg), h')
    /\ h' = repeat (rpc_request "getBalance" [JStr example_address]) 3
    /\ Z.of_nat (List.length h') = 3
    /\ msg = "RPC request timed out after 3 retries".
Proof.
  destruct (call_rpc_exhausts_retries plain_runtime default_settings always_timeout
              "getBalance" [JStr example_address] [])
    as (msg & h' & Hrun & Hh & Hlen & Hmsg).
  - vm_compute. discriminate.
  - intros j Hj. reflexivity.
  - exists msg, h'. repeat split; try assumption.
    destruct Hmsg as [[H0 _]|[_ Hmsg]]; [discriminate H0 | exact Hmsg].
Defined.

(** An endpoint that refuses the first attempt with a JSON-RPC error. *)
Lemma call_rpc_error_not_retried_witness :
  _call_rpc plain_runtime default_settings refusing_chain
    "getBalance" [JStr example_address] []
  = (Raise (SolanaRPCError "RPC error: Invalid param: WrongSize"),
     [rpc_request "getBalance" [JStr example_address]]).
Proof.
  destruct (call_rpc_error_not_retried plain_runtime default_settings
              refusing_chain "getBalance" [JStr example_address] [] 0
              (rpc_error_body (-32602) "Invalid param: WrongSize"))
    as [_ Hobj].
  - vm_compute. lia.
  - intros j Hj. lia.
  - reflexivity.
  - reflexivity.
  - apply (Hobj _ _ eq_refl eq_refl).
Defined.

(** The balance of the example wallet. *)
Lemma get_balance_result_shapes_witness :
  get_balance plain_runtime default_settings example_chain example_address []
  = (Ok 1420000000, [rpc_request "getBalance" [JStr example_address]]).
Proof.
  destruct (get_balance_result_shapes plain_runtime default_settings
              example_chain example_address []
              [rpc_request "getBalance" [JStr example_address]]
              (JObj [("context", JObj [("slot", JInt 1)]);
                     ("value", JInt 1420000000)]))
    as (_ & _ & _ & Hvalue).
  - discriminate.
  - reflexivity.
  - apply (Hvalue _ _ eq_refl eq_refl).
Defined.

(** The summary of the example wallet counts its 37 signatures. *)
Lemma summary_tx_count_capped_witness :
  exists s hf,
    get_wallet_summary plain_runtime default_settings example_chain example_address []
    = (Ok s, hf)
    /\ tx_count s = 37 /\ 0 <= tx_count s <= 1000.
Proof.
  eexists. eexists. split; [vm_compute; reflexivity|].
  match goal with
  | |- tx_count ?s = _ /\ _ =>
      destruct (summary_tx_count_capped plain_runtime default_settings example_chain
                  example_address [] _ s eq_refl)
        as (h2 & result & Hcall & _ & Hlist)
  end.
  vm_compute in Hcall. inversion Hcall as [[Hres Hhist]].
  destruct (Hlist _ (eq_sym Hres)) as [Hcount Hcap].
  split; [rewrite Hcount; reflexivity | apply Hcap; cbn; lia].
Defined.

(** A most recent signature with block time 0 leaves [last_active] absent. *)
Lemma summary_last_active_absent_witness :
  exists s hf,
    get_wallet_summary plain_runtime default_settings dormant_chain example_address []
    = (Ok s, hf)
    /\ last_active s = None.
Proof.
  eexists. eexists. split; [vm_compute; reflexivity|].
  match goal with
  | |- last_active ?s = None =>
      destruct (summary_last_active_absent plain_runtime default_settings dormant_chain
                  example_address [] _ s eq_refl)
        as (b & h1 & sigs & h2 & Hb & Hs & _ & Hzero)
  end.
  vm_compute in Hs. inversion Hs as [[Hsigs Hh2]].
  eapply Hzero; [symmetry; exact Hsigs|]. right. right. reflexivity.
Defined.

(** The wallet without signatures: one request, an empty list. *)
Lemma transactions_empty_without_details_witness :
  get_wallet_transactions plain_runtime default_settings quiet_chain example_address 10 []
  = (Ok {| address := example_address; transactions := []; count := 0 |},
     [rpc_request "getSignaturesForAddress"
        [JStr example_address; JObj [("limit", JInt 10)]]]).
Proof.
  apply (transactions_empty_without_details plain_runtime default_settings quiet_chain
           example_address 10 [] _ (JList [])); reflexivity.
Defined.

(** Three signatures, the second of which cannot be fetched: the first
    and the third are returned. *)
Lemma transactions_isolate_entry_errors_witness :
  exists r hf,
    get_wallet_transactions plain_runtime default_settings flaky_chain example_address 10 []
    = (Ok r, hf)
    /\ map signature (transactions r) = ["S1"; "S3"]
    /\ count r = 3 - 1.
Proof.
  destruct (transactions_isolate_entry_errors plain_runtime default_settings flaky_chain
              example_address 10 []
              [rpc_request "getSignaturesForAddress"
                 [JStr example_address; JObj [("limit", JInt 10)]]]
              [signature_entry "S1" 3 (JInt 1768000000);
               signature_entry "S2" 2 (JInt 1767000000);
               signature_entry "S3" 1 JNull])
    as (_ & _ & Hone & _); try reflexivity.
  destruct (Hone [signature_entry "S1" 3 (JInt 1768000000)]
              [("signature", JStr "S2"); ("slot", JInt 2); ("err", JNull);
               ("blockTime", JInt 1767000000)]
              [signature_entry "S3" 1 JNull]
              [signatures_request example_address 10;
               details_request (JStr "S1"); details_request (JStr "S2")])
    as (Hrun & _ & _).
  - reflexivity.
  - reflexivity.
  - reflexivity.
  - left. exists (SolanaRPCError "RPC error: node is behind"). reflexivity.
  - reflexivity.
  - eexists. eexists. split; [exact Hrun|]. cbn [transactions count].
    split; [vm_compute; reflexivity | reflexivity].
Defined.

(** C4 as stated fails: with an ["err"] that is an empty object, present
    and not null, the record built has status "success". *)
Lemma empty_err_counts_as_success :
  err_non_null details_with_empty_err = true
  /\ build_transaction plain_runtime (signature_entry "S1" 1 (JInt 1768000000))
       (JStr "S1") details_with_empty_err
     = Ok {| signature := "S1"; block_time := {| unix_micros := 1768000000000000 |};
             slot := 1; status := "success"; fee := 5000 |}
  /\ ~ (forall t,
          build_transaction plain_runtime (signature_entry "S1" 1 (JInt 1768000000))
            (JStr "S1") details_with_empty_err = Ok t ->
          (status t = "failed" <-> err_non_null details_with_empty_err = true)).
Proof.
  split; [reflexivity|]. split; [reflexivity|].
  intros Hclaim. specialize (Hclaim _ eq_refl). destruct Hclaim as [_ Hfailed].
  specialize (Hfailed eq_refl). discriminate Hfailed.
Qed.

(** A transaction that failed on chain. *)
Lemma status_follows_err_truth_witness :
  exists t,
    build_transaction plain_runtime (signature_entry "S1" 1 (JInt 1768000000))
      (JStr "S1") details_with_err = Ok t
    /\ status t = "failed".
Proof.
  eexists. split; [vm_compute; reflexivity|].
  match goal with
  | |- status ?t = _ =>
      apply (proj1 (status_follows_err_truth plain_runtime
                      (signature_entry "S1" 1 (JInt 1768000000))
                      (JStr "S1") details_with_err t eq_refl))
  end.
  reflexivity.
Defined.

(** * Further properties *)

(** ** How computations fail *)

Lemma bind_raise_inv {A B} (c : M A) (k : A -> M B) (h hf : history) (e : exn) :
  bind c k h = (Raise e, hf) ->
  c h = (Raise e, hf) \/ exists a h1, c h = (Ok a, h1) /\ k a h1 = (Raise e, hf).
Proof.
  unfold bind. destruct (c h) as [[a|e0] h1]; intros H; [right; eauto|].
  left. inversion H. reflexivity.
Qed.

Lemma lift_raise_inv {A} (o : outcome A) (h hf : history) (e : exn) :
  lift o h = (Raise e, hf) -> o = Raise e /\ hf = h.
Proof. unfold lift. intros H. inversion H. auto. Qed.

Lemma obind_raise_inv {A B} (o : outcome A) (k : A -> outcome B) (e : exn) :
  obind o k = Raise e -> o = Raise e \/ exists a, o = Ok a /\ k a = Raise e.
Proof.
  destruct o as [a|e0]; cbn; intros H; [right; eauto|].
  left. inversion H. reflexivity.
Qed.

(** ** The transport *)

Section TransportBounds.

Variable rt : Runtime.
Variable settings : Settings.
Variable net : network.

(** Every turn of the loop posts the request once and nothing else; a
    result takes at least one post. *)
Lemma rpc_loop_posts (p : payload) (fuel : nat) :
  forall retry_count h,
  exists n,
    snd (rpc_loop rt settings net fuel retry_count p h) = (h ++ repeat p n)%list
    /\ (n <= fuel)%nat
    /\ Z.of_nat n <= Z.max 0 (max_retries settings - retry_count)
    /\ (forall v, fst (rpc_loop rt settings net fuel retry_count p h) = Ok v ->
        (1 <= n)%nat).
Proof.
  induction fuel as [|fuel IH]; intros rc h.
  - exists O. cbn. rewrite app_nil_r. repeat split; try lia. discriminate.
  - cbn [rpc_loop].
    destruct (Z.ltb_spec rc (max_retries settings)) as [Hlt|Hge].
    + assert (Hone : exists n : nat,
                (h ++ [p] = h ++ repeat p n)%list /\ (n <= S fuel)%nat
                /\ Z.of_nat n <= Z.max 0 (max_retries settings - rc)
                /\ (1 <= n)%nat).
      { exists 1%nat. cbn [repeat]. repeat split; lia. }
      assert (Hrec : forall rc', rc' = rc + 1 ->
                exists n : nat,
                  snd (rpc_loop rt settings net fuel rc' p (h ++ [p])%list)
                  = (h ++ repeat p n)%list
                  /\ (n <= S fuel)%nat
                  /\ Z.of_nat n <= Z.max 0 (max_retries settings - rc)
                  /\ (forall v,
                         fst (rpc_loop rt settings net fuel rc' p (h ++ [p])%list) = Ok v ->
                         (1 <= n)%nat)).
      { intros rc' ->. destruct (IH (rc + 1) (h ++ [p])%list) as (n & Hh & Hn & Hz & _).
        exists (S n). rewrite Hh, history_snoc_repeat.
        repeat split; lia. }
      destruct (net h p); cbn [fst snd];
        try (destruct Hone as (n & Hh & Hn & Hz & H1); exists n;
             repeat split; (assumption || (intros; assumption)));
        (destruct (rc + 1 >=? max_retries settings); cbn [fst snd];
         [ destruct Hone as (n & Hh & Hn & Hz & H1); exists n;
           repeat split; (assumption || (intros; assumption))
         | apply Hrec; reflexivity ]).
    + exists O. cbn. rewrite app_nil_r. repeat split; try lia. discriminate.
Qed.

(** X1. Whatever the endpoint does, a call posts its own request and no
    other, at most [max_retries] times, and a call that returns a result
    has posted at least once. *)
Theorem call_rpc_posts_bounded (method : string) (params : list json) (h : history) :
  exists n,
    snd (_call_rpc rt settings net method params h)
    = (h ++ repeat (rpc_request method params) n)%list
    /\ Z.of_nat n <= Z.max 0 (max_retries settings)
    /\ (forall v, fst (_call_rpc rt settings net method params h) = Ok v ->
        (1 <= n)%nat).
Proof.
  unfold _call_rpc.
  destruct (rpc_loop_posts (rpc_request method params)
              (Z.to_nat (max_retries settings)) 0 h) as (n & Hh & _ & Hz & H1).
  exists n. rewrite Z.sub_0_r in Hz. auto.
Qed.

(** X2. Retrying recovers: after failed attempts that leave room for one
    more, a 2xx answer whose body is a dict without ["error"] makes the
    call return the value under ["result"] as it is ([None] when there is
    none), one post after the failures. *)
Theorem call_rpc_returns_result (method : string) (params : list json)
    (h : history) (k : nat) (items : list (string * json)) :
  (k < Z.to_nat (max_retries settings))%nat ->
  (forall j, (j < k)%nat ->
     transport_failure
       (net (h ++ repeat (rpc_request method params) j)%list
            (rpc_request method params)) = true) ->
  net (h ++ repeat (rpc_request method params) k)%list (rpc_request method params)
  = Body (JObj items) ->
  dict_get items "error" = None ->
  _call_rpc rt settings net method params h
  = (Ok (match dict_get items "result" with Some v => v | None => JNull end),
     (h ++ repeat (rpc_request method params) (S k))%list).
Proof.
  intros Hk Hfail Hnet Herr.
  rewrite (call_rpc_answer rt settings net method params h k _ Hk Hfail Hnet).
  unfold read_body. cbn [py_in obind py_get]. rewrite Herr. reflexivity.
Qed.

End TransportBounds.

(** ** The client *)

Section ClientFailures.

Variable rt : Runtime.
Variable settings : Settings.
Variable net : network.

Lemma reraise_wraps {A} (what : string) (c : M A) (h h1 : history) (e : exn) :
  c h = (Raise e, h1) ->
  reraise_as_rpc_error what c h
  = (Raise (if is_SolanaRPCError e then e
            else SolanaRPCError (what ++ ": " ++ exn_str e)), h1).
Proof.
  intros Hc. unfold reraise_as_rpc_error, try_except. rewrite Hc.
  destruct (is_SolanaRPCError e); reflexivity.
Qed.

Lemma get_balance_raises (address : string) (h hf : history) (e : exn) :
  get_balance rt settings net address h = (Raise e, hf) -> is_SolanaRPCError e = true.
Proof.
  unfold get_balance. destruct (String.eqb address "").
  - intros H. inversion H. reflexivity.
  - apply reraise_raises_rpc_error.
Qed.

Lemma get_transaction_count_raises (address : string) (h hf : history) (e : exn) :
  get_transaction_count rt settings net address h = (Raise e, hf) ->
  is_SolanaRPCError e = true.
Proof.
  unfold get_transaction_count. destruct (String.eqb address "").
  - intros H. inversion H. reflexivity.
  - apply reraise_raises_rpc_error.
Qed.

Lemma get_signatures_raises (address : string) (limit : Z) (h hf : history) (e : exn) :
  get_signatures rt settings net address limit h = (Raise e, hf) ->
  is_SolanaRPCError e = true.
Proof.
  unfold get_signatures. destruct (String.eqb address "").
  - intros H. inversion H. reflexivity.
  - destruct ((limit <? 1) || (limit >? 1000)).
    + intros H. inversion H. reflexivity.
    + apply reraise_raises_rpc_error.
Qed.

Lemma get_transaction_details_raises (sg : json) (h hf : history) (e : exn) :
  get_transaction_details rt settings net sg h = (Raise e, hf) ->
  is_SolanaRPCError e = true.
Proof.
  unfold get_transaction_details. destruct (negb (truthy sg)).
  - intros H. inversion H. reflexivity.
  - apply reraise_raises_rpc_error.
Qed.

(** X3. Nothing but a [SolanaRPCError] ever leaves the four public
    methods of the client, whatever the endpoint answers and whatever the
    conversions of the runtime raise. *)
Theorem client_raises_only_rpc_errors (e : exn) (h hf : history) :
  (forall address,
     get_balance rt settings net address h = (Raise e, hf) ->
     is_SolanaRPCError e = true)
  /\ (forall address,
        get_transaction_count rt settings net address h = (Raise e, hf) ->
        is_SolanaRPCError e = true)
  /\ (forall address limit,
        get_signatures rt settings net address limit h = (Raise e, hf) ->
        is_SolanaRPCError e = true)
  /\ (forall sg,
        get_transaction_details rt settings net sg h = (Raise e, hf) ->
        is_SolanaRPCError e = true).
Proof.
  repeat split; intros.
  - eapply get_balance_raises; eassumption.
  - eapply get_transaction_count_raises; eassumption.
  - eapply get_signatures_raises; eassumption.
  - eapply get_transaction_details_raises; eassumption.
Qed.

(** With [max_retries] at 0 or below the loop is never entered. *)
Lemma call_rpc_no_attempt (method : string) (params : list json) (h : history) :
  max_retries settings <= 0 ->
  _call_rpc rt settings net method params h
  = (Raise (SolanaRPCError "Max retries exceeded"), h).
Proof.
  intros Hmax. unfold _call_rpc.
  replace (Z.to_nat (max_retries settings)) with O by lia. reflexivity.
Qed.

(** All the attempts the settings allow fail. *)
Lemma call_rpc_all_fail (method : string) (params : list json) (h : history) :
  0 < max_retries settings ->
  (forall j, (j < Z.to_nat (max_retries settings))%nat ->
     transport_failure
       (net (h ++ repeat (rpc_request method params) j)%list
            (rpc_request method params)) = true) ->
  _call_rpc rt settings net method params h
  = (Raise (SolanaRPCError
              (terminal_message (max_retries settings)
                 (net (h ++ repeat (rpc_request method params)
                              (Z.to_nat (max_retries settings) - 1))%list
                      (rpc_request method params)))),
     (h ++ repeat (rpc_request method params)
             (Z.to_nat (max_retries settings)))%list).
Proof.
  intros Hpos Hfail. unfold _call_rpc.
  set (p := rpc_request method params) in *.
  destruct (Z.to_nat (max_retries settings)) as [|k] eqn:Hk; [lia|].
  replace (S k) with (k + 1)%nat by lia.
  rewrite (rpc_loop_skip rt settings net) by (intros; try apply Hfail; lia).
  rewrite (rpc_loop_last_failure rt settings net)
    by (try (apply Hfail); lia).
  replace (k + 1 - 1)%nat with k by lia.
  rewrite <- app_assoc.
  replace (k + 1)%nat with (S k) by lia.
  rewrite <- repeat_cons. reflexivity.
Qed.

(** X4. The count and the list agree: when the endpoint answers the
    request with limit 1000 by a list, [get_transaction_count] returns the
    length of the very list [get_signatures] returns for that limit. *)
Theorem transaction_count_matches_signatures (address : string) (h h' : history)
    (l : list json) :
  address <> "" ->
  _call_rpc rt settings net "getSignaturesForAddress"
    [JStr address; JObj [("limit", JInt 1000)]] h = (Ok (JList l), h') ->
  get_signatures rt settings net address 1000 h = (Ok (JList l), h')
  /\ get_transaction_count rt settings net address h
     = (Ok (Z.of_nat (List.length l)), h').
Proof.
  intros Hne Hcall. unfold get_signatures, get_transaction_count.
  destruct (String.eqb_spec address "") as [?|_]; [contradiction|].
  cbn [Z.ltb Z.gtb Z.compare Pos.compare Pos.compare_cont orb].
  split; apply reraise_ok; rewrite (bind_ok _ _ _ _ _ Hcall);
    destruct l; reflexivity.
Qed.

End ClientFailures.

(** ** The routes *)

Lemma not_rejected_nonempty (a : string) :
  address_rejected a = false -> a <> "".
Proof.
  unfold address_rejected. destruct (String.eqb_spec a ""); [discriminate | auto].
Qed.

Lemma rpc_error_not_http (e : exn) :
  is_SolanaRPCError e = true -> is_HTTPException e = false.
Proof. destruct e; cbn; intros H; (reflexivity || discriminate). Qed.

Lemma py_get_raises (o : json) (key : string) (default : json) (e : exn) :
  py_get o key default = Raise e -> e = AttributeError o "get".
Proof. destruct o; cbn; intros H; inversion H; reflexivity. Qed.


Lemma py_len_raises (v : json) (e : exn) :
  py_len v = Raise e -> is_HTTPException e = false.
Proof. destruct v; cbn; intros H; inversion H; reflexivity. Qed.

Lemma py_index0_raises (v : json) (e : exn) :
  py_index0 v = Raise e -> is_HTTPException e = false.
Proof.
  destruct v as [| | | |s|l|]; cbn; intros H; try (inversion H; reflexivity).
  - destruct s; inversion H; reflexivity.
  - destruct l; inversion H; reflexivity.
Qed.

Lemma lamports_to_sol_raises (lamports : Z) (e : exn) :
  lamports_to_sol lamports = Raise e -> is_HTTPException e = false.
Proof.
  unfold lamports_to_sol, py_truediv. destruct (LAMPORTS_PER_SOL =? 0).
  - intros H. inversion H. reflexivity.
  - destruct (SFdiv prec emax (float_of_int lamports) (float_of_int LAMPORTS_PER_SOL));
      intros H; inversion H; reflexivity.
Qed.

Section RouterFailures.

Variable rt : Runtime.
Variable settings : Settings.
Variable net : network.

(** What the three handlers make of an exception. *)
Lemma route_errors_raise {A} (c : M A) (h h1 : history) (e : exn) :
  c h = (Raise e, h1) ->
  route_errors c h
  = (Raise (match e with
            | SolanaRPCError msg => HTTPException 503 ("Solana RPC error: " ++ msg)
            | HTTPException _ _ => e
            | _ => HTTPException 500 ("Internal server error: " ++ exn_str e)
            end), h1).
Proof.
  intros Hc. unfold route_errors, try_except. rewrite Hc. destruct e; reflexivity.
Qed.

Lemma route_errors_raise_inv {A} (c : M A) (h hf : history) (e' : exn) :
  route_errors c h = (Raise e', hf) ->
  exists e,
    c h = (Raise e, hf)
    /\ e' = match e with
            | SolanaRPCError msg => HTTPException 503 ("Solana RPC error: " ++ msg)
            | HTTPException _ _ => e
            | _ => HTTPException 500 ("Internal server error: " ++ exn_str e)
            end.
Proof.
  unfold route_errors, try_except. destruct (c h) as [[a|e] h1]; [discriminate|].
  intros H. exists e. destruct e; inversion H; auto.
Qed.

Lemma new_WalletSummary_raises a b bl n la (e : exn) :
  new_WalletSummary rt a b bl n la = Raise e -> is_HTTPException e = false.
Proof.
  unfold new_WalletSummary. destruct (validate_address a); intros H; inversion H.
  reflexivity.
Qed.




Lemma summary_last_active_raises (signatures : json) (e : exn) :
  (forall v e', fromtimestamp rt v = Raise e' -> is_HTTPException e' = false) ->
  summary_last_active rt signatures = Raise e -> is_HTTPException e = false.
Proof.
  intros Hrt H. unfold summary_last_active in H.
  apply obind_raise_inv in H. destruct H as [H|(nonempty & _ & H)].
  - destruct (truthy signatures); [|discriminate].
    apply obind_raise_inv in H. destruct H as [H|(n & _ & H)]; [|discriminate].
    eapply py_len_raises; exact H.
  - destruct nonempty; [|discriminate].
    apply obind_raise_inv in H. destruct H as [H|(first & _ & H)].
    { eapply py_index0_raises; exact H. }
    apply obind_raise_inv in H. destruct H as [H|(bt & _ & H)].
    { apply py_get_raises in H. subst. reflexivity. }
    destruct (truthy bt); [|discriminate].
    unfold timestamp_to_datetime in H. destruct bt; try discriminate;
      (apply obind_raise_inv in H; destruct H as [H|(d & _ & H)];
       [eapply Hrt; exact H | discriminate]).
Qed.



Lemma summary_inner_raises (address : string) (h hf : history) (e : exn) :
  (forall v e', fromtimestamp rt v = Raise e' -> is_HTTPException e' = false) ->
  (balance_lamports <- get_balance rt settings net address ;;
   signatures <- get_signatures rt settings net address 1 ;;
   tx_count <- get_transaction_count rt settings net address ;;
   last_active <- lift (summary_last_active rt signatures) ;;
   balance_sol <- lift (lamports_to_sol balance_lamports) ;;
   lift (new_WalletSummary rt address (py_round rt balance_sol 9)
           balance_lamports tx_count last_active)) h = (Raise e, hf) ->
  is_HTTPException e = false.
Proof.
  intros Hrt H. apply bind_raise_inv in H. destruct H as [H|(b & h1 & _ & H)].
  { apply rpc_error_not_http. eapply get_balance_raises. exact H. }
  apply bind_raise_inv in H. destruct H as [H|(sigs & h2 & _ & H)].
  { apply rpc_error_not_http. eapply get_signatures_raises. exact H. }
  apply bind_raise_inv in H. destruct H as [H|(n & h3 & _ & H)].
  { apply rpc_error_not_http. eapply get_transaction_count_raises. exact H. }
  apply bind_raise_inv in H. destruct H as [H|(la & h4 & _ & H)].
  { apply lift_raise_inv in H. destruct H as [H _].
    eapply summary_last_active_raises; eassumption. }
  apply bind_raise_inv in H. destruct H as [H|(bs & h5 & _ & H)].
  { apply lift_raise_inv in H. destruct H as [H _].
    eapply lamports_to_sol_raises. exact H. }
  apply lift_raise_inv in H. destruct H as [H _].
  eapply new_WalletSummary_raises. exact H.
Qed.

(** X6. With a [datetime.fromtimestamp] that raises no [HTTPException],
    every failure of the summary route is an [HTTPException] with status
    400, 503 or 500, and 400 exactly when the address is empty or its
    length is outside 32..44; it is answered with that status and the
    body [{"error": detail}]. *)
Theorem summary_failures_are_http (address : string) (h hf : history) (e : exn) :
  (forall v e', fromtimestamp rt v = Raise e' -> is_HTTPException e' = false) ->
  get_wallet_summary rt settings net address h = (Raise e, hf) ->
  exists code detail,
    e = HTTPException code detail
    /\ (code = 400 \/ code = 503 \/ code = 500)
    /\ (code = 400 <-> address_rejected address = true)
    /\ handle_exception e
       = {| response_status := code; content := JObj [("error", JStr detail)] |}.
Proof.
  intros Hrt. unfold get_wallet_summary.
  destruct (address_rejected address) eqn:Hrej.
  - intros H. inversion H. subst. do 2 eexists. split; [reflexivity|].
    repeat split; auto.
  - intros H. apply route_errors_raise_inv in H. destruct H as (e0 & Hin & ->).
    assert (Hnot := summary_inner_raises _ _ _ _ Hrt Hin).
    destruct e0; try discriminate Hnot; do 2 eexists;
      (split; [reflexivity|]); (split; [auto|]);
      (split; [split; intros; discriminate | reflexivity]).
Qed.

End RouterFailures.

Section RouterRuns.

Variable rt : Runtime.
Variable settings : Settings.
Variable net : network.

(** A failure of the first call of a route is a failure of the route. *)
Lemma summary_balance_fails (address : string) (h h1 : history) (msg : string) :
  address_rejected address = false ->
  get_balance rt settings net address h = (Raise (SolanaRPCError msg), h1) ->
  get_wallet_summary rt settings net address h
  = (Raise (HTTPException 503 ("Solana RPC error: " ++ msg)), h1).
Proof.
  intros Hrej Hb. unfold get_wallet_summary. rewrite Hrej.
  rewrite (route_errors_raise _ h h1 (SolanaRPCError msg)); [reflexivity|].
  apply bind_raise. exact Hb.
Qed.

Lemma transactions_lookup_fails (address : string) (limit : Z) (h h1 : history)
    (msg : string) :
  address_rejected address = false ->
  get_signatures rt settings net address limit h = (Raise (SolanaRPCError msg), h1) ->
  get_wallet_transactions rt settings net address limit h
  = (Raise (HTTPException 503 ("Solana RPC error: " ++ msg)), h1).
Proof.
  intros Hrej Hs. unfold get_wallet_transactions. rewrite Hrej.
  rewrite (route_errors_raise _ h h1 (SolanaRPCError msg)); [reflexivity|].
  apply bind_raise. exact Hs.
Qed.

(** What the client methods make of a call that raises. *)
Lemma get_balance_call_fails (address : string) (h h1 : history) (e : exn) :
  address <> "" ->
  _call_rpc rt settings net "getBalance" [JStr address] h = (Raise e, h1) ->
  get_balance rt settings net address h
  = (Raise (if is_SolanaRPCError e then e
            else SolanaRPCError ("Failed to fetch balance: " ++ exn_str e)), h1).
Proof.
  intros Hne Hcall. unfold get_balance.
  destruct (String.eqb_spec address "") as [?|_]; [contradiction|].
  apply reraise_wraps. apply bind_raise. exact Hcall.
Qed.

Lemma get_signatures_call_fails (address : string) (limit : Z) (h h1 : history) (e : exn) :
  address <> "" -> 1 <= limit <= 1000 ->
  _call_rpc rt settings net "getSignaturesForAddress"
    [JStr address; JObj [("limit", JInt limit)]] h = (Raise e, h1) ->
  get_signatures rt settings net address limit h
  = (Raise (if is_SolanaRPCError e then e
            else SolanaRPCError ("Failed to fetch signatures: " ++ exn_str e)), h1).
Proof.
  intros Hne Hlim Hcall. unfold get_signatures.
  destruct (String.eqb_spec address "") as [?|_]; [contradiction|].
  destruct (Z.ltb_spec limit 1); [lia|].
  destruct (Z.gtb_spec limit 1000); [lia|]. cbn [orb].
  apply reraise_wraps. apply bind_raise. exact Hcall.
Qed.

(** X7. With [max_retries] at 0 or below the service posts nothing and
    refuses every request whose address passes the length check: both
    routes answer 503, "Max retries exceeded". *)
Theorem routes_without_retries (address : string) (limit : Z) (h : history) :
  max_retries settings <= 0 ->
  address_rejected address = false ->
  1 <= limit <= 1000 ->
  get_wallet_summary rt settings net address h
  = (Raise (HTTPException 503 "Solana RPC error: Max retries exceeded"), h)
  /\ get_wallet_transactions rt settings net address limit h
     = (Raise (HTTPException 503 "Solana RPC error: Max retries exceeded"), h).
Proof.
  intros Hmax Hrej Hlim. assert (Hne := not_rejected_nonempty _ Hrej). split.
  - apply (summary_balance_fails address h h "Max retries exceeded" Hrej).
    rewrite (get_balance_call_fails address h h _ Hne
               (call_rpc_no_attempt rt settings net _ _ h Hmax)).
    reflexivity.
  - apply (transactions_lookup_fails address limit h h "Max retries exceeded" Hrej).
    rewrite (get_signatures_call_fails address limit h h _ Hne Hlim
               (call_rpc_no_attempt rt settings net _ _ h Hmax)).
    reflexivity.
Qed.

(** A first answer that is not 2xx, or whose body is not JSON, ends the
    call after that one post. *)
Lemma call_rpc_first_unusable (method : string) (params : list json) (h : history)
    (msg : string) :
  0 < max_retries settings ->
  net h (rpc_request method params) = BadStatus msg
  \/ net h (rpc_request method params) = BadJson msg ->
  exists e,
    _call_rpc rt settings net method params h
    = (Raise e, (h ++ [rpc_request method params])%list)
    /\ is_SolanaRPCError e = false /\ exn_str e = msg.
Proof.
  intros Hpos Hnet. unfold _call_rpc.
  destruct (Z.to_nat (max_retries settings)) as [|k] eqn:Hk; [lia|].
  cbn [rpc_loop]. destruct (Z.ltb_spec 0 (max_retries settings)); [|lia].
  destruct Hnet as [-> | ->]; eexists; split; try reflexivity; split; reflexivity.
Qed.

(** X8. An answer to the first request of a route that is not 2xx, or
    whose body is not JSON, is not tried again: after that one post the
    route answers 503, with the text of the failure behind "Failed to
    fetch balance" or "Failed to fetch signatures". *)
Theorem routes_unusable_answer (address : string) (limit : Z) (h : history)
    (msg : string) :
  0 < max_retries settings ->
  address_rejected address = false ->
  1 <= limit <= 1000 ->
  (net h (balance_request address) = BadStatus msg
   \/ net h (balance_request address) = BadJson msg ->
   get_wallet_summary rt settings net address h
   = (Raise (HTTPException 503
               ("Solana RPC error: Failed to fetch balance: " ++ msg)),
      (h ++ [balance_request address])%list))
  /\ (net h (signatures_request address limit) = BadStatus msg
      \/ net h (signatures_request address limit) = BadJson msg ->
      get_wallet_transactions rt settings net address limit h
      = (Raise (HTTPException 503
                  ("Solana RPC error: Failed to fetch signatures: " ++ msg)),
         (h ++ [signatures_request address limit])%list)).
Proof.
  intros Hpos Hrej Hlim. assert (Hne := not_rejected_nonempty _ Hrej). split; intros Hnet.
  - destruct (call_rpc_first_unusable "getBalance" [JStr address] h msg Hpos Hnet)
      as (e & Hcall & Hcls & Hstr).
    apply summary_balance_fails; [exact Hrej|].
    rewrite (get_balance_call_fails address h _ e Hne Hcall), Hcls, Hstr. reflexivity.
  - destruct (call_rpc_first_unusable "getSignaturesForAddress"
                [JStr address; JObj [("limit", JInt limit)]] h msg Hpos Hnet)
      as (e & Hcall & Hcls & Hstr).
    apply transactions_lookup_fails; [exact Hrej|].
    rewrite (get_signatures_call_fails address limit h _ e Hne Hlim Hcall), Hcls, Hstr.
    reflexivity.
Qed.

(** X9. When every attempt of the balance request times out or fails to
    connect, the summary route gives up after exactly [max_retries] posts
    of that request, never reaches the signature lookups, and answers 503
    with the message of the last attempt. *)
Theorem summary_transport_exhausted (address : string) (h : history) :
  0 < max_retries settings ->
  address_rejected address = false ->
  (forall j, (j < Z.to_nat (max_retries settings))%nat ->
     transport_failure
       (net (h ++ repeat (balance_request address) j)%list
            (balance_request address)) = true) ->
  get_wallet_summary rt settings net address h
  = (Raise (HTTPException 503
              ("Solana RPC error: "
                 ++ terminal_message (max_retries settings)
                      (net (h ++ repeat (balance_request address)
                                   (Z.to_nat (max_retries settings) - 1))%list
                           (balance_request address)))),
     (h ++ repeat (balance_request address) (Z.to_nat (max_retries settings)))%list).
Proof.
  intros Hpos Hrej Hfail. assert (Hne := not_rejected_nonempty _ Hrej).
  apply summary_balance_fails; [exact Hrej|].
  rewrite (get_balance_call_fails address h _ _ Hne
             (call_rpc_all_fail rt settings net "getBalance" [JStr address] h Hpos Hfail)).
  reflexivity.
Qed.

End RouterRuns.

Section RouterResults.

Variable rt : Runtime.
Variable settings : Settings.
Variable net : network.

Lemma process_entries_length (entries : list json) :
  forall acc h txs hf,
    process_entries rt settings net entries acc h = (Ok txs, hf) ->
    (List.length acc <= List.length txs <= List.length acc + List.length entries)%nat.
Proof.
  induction entries as [|sd entries IH]; intros acc h txs hf H.
  - inversion H. subst. cbn. lia.
  - cbn [process_entries] in H. apply bind_ok_inv in H.
    destruct H as (r & h1 & _ & H). apply IH in H.
    destruct r; [rewrite length_app in H|]; cbn [List.length] in *; lia.
Qed.

(** What a list that was returned is made of. *)
Lemma get_wallet_transactions_inv (address : string) (limit : Z) (h hf : history)
    (r : TransactionList) :
  get_wallet_transactions rt settings net address limit h = (Ok r, hf) ->
  exists sigs h1 txs,
    get_signatures rt settings net address limit h = (Ok sigs, h1)
    /\ new_TransactionList rt address txs (Z.of_nat (List.length txs)) = Ok r
    /\ (forall l, sigs = JList l -> (List.length txs <= List.length l)%nat).
Proof.
  unfold get_wallet_transactions.
  destruct (address_rejected address); [discriminate|].
  intros H. apply try_except_ok_inv in H;
    [|intros e h1; destruct e; eexists; reflexivity].
  apply bind_ok_inv in H. destruct H as (sigs & h1 & Hs & H).
  exists sigs, h1. destruct (truthy sigs) eqn:Ht; cbn [negb] in H.
  - apply bind_ok_inv in H. destruct H as (entries & h2 & Hit & H).
    apply lift_ok_inv in Hit. destruct Hit as [Hit ->].
    apply bind_ok_inv in H. destruct H as (txs & h3 & Hloop & H).
    apply lift_ok_inv in H. destruct H as [Hnew ->].
    exists txs. repeat split; try assumption.
    intros l ->. cbn [py_iter] in Hit. inversion Hit. subst.
    apply process_entries_length in Hloop. cbn [List.length] in Hloop. lia.
  - apply lift_ok_inv in H. destruct H as [Hnew ->].
    exists []. repeat split; try assumption. intros; cbn; lia.
Qed.

(** X10. In every list the transactions route returns, [count] is the
    number of records, and there are no more records than entries in the
    signature list the lookup returned. *)
Theorem transactions_count_is_length (address : string) (limit : Z) (h hf : history)
    (r : TransactionList) :
  get_wallet_transactions rt settings net address limit h = (Ok r, hf) ->
  count r = Z.of_nat (List.length (transactions r))
  /\ exists sigs h1,
       get_signatures rt settings net address limit h = (Ok sigs, h1)
       /\ (forall l, sigs = JList l ->
           (List.length (transactions r) <= List.length l)%nat).
Proof.
  intros H. apply get_wallet_transactions_inv in H.
  destruct H as (sigs & h1 & txs & Hs & Hnew & Hlen).
  unfold new_TransactionList in Hnew.
  destruct (validate_address address); [|discriminate].
  inversion Hnew. subst. cbn [count transactions]. split; [reflexivity|].
  exists sigs, h1. auto.
Qed.

(** X11. Whatever either route returns carries the address of the request,
    and that address has 32 to 44 characters, all of the base58 alphabet. *)
Theorem returned_objects_carry_valid_address (addr : string) (limit : Z)
    (h hf : history) :
  (forall s,
     get_wallet_summary rt settings net addr h = (Ok s, hf) ->
     summary_address s = addr
     /\ 32 <= len_str addr <= 44 /\ all_base58 addr = true)
  /\ (forall r,
        get_wallet_transactions rt settings net addr limit h = (Ok r, hf) ->
        address r = addr
        /\ 32 <= len_str addr <= 44 /\ all_base58 addr = true).
Proof.
  split.
  - intros s H.
    destruct (validate_address addr) as [v|e] eqn:Hv.
    + apply validate_address_ok in Hv. destruct Hv as (_ & _ & Hlen & Hb58).
      apply get_wallet_summary_inv in H.
      destruct H as (b & h1 & sigs & h2 & n & la & bs & _ & _ & _ & _ & _ & ->).
      auto.
    + exfalso.
      apply (proj1 (refused_address_gets_no_result rt settings net addr limit h
                      ltac:(intros v Hv'; rewrite Hv in Hv'; discriminate)) s hf H).
  - intros r H. apply get_wallet_transactions_inv in H.
    destruct H as (sigs & h1 & txs & _ & Hnew & _).
    unfold new_TransactionList in Hnew.
    destruct (validate_address addr) as [v|e] eqn:Hv; [|discriminate].
    apply validate_address_ok in Hv. destruct Hv as (-> & _ & Hlen & Hb58).
    inversion Hnew. auto.
Qed.

(** X12. The two balance fields of a returned summary agree: [balance] is
    [balance_lamports] divided by 10^9 and rounded to 9 digits, and
    [balance_lamports] is what [get_balance] returned. *)
Theorem summary_balance_fields_agree (address : string) (h hf : history)
    (s : WalletSummary) :
  get_wallet_summary rt settings net address h = (Ok s, hf) ->
  exists bs h1,
    get_balance rt settings net address h = (Ok (balance_lamports s), h1)
    /\ lamports_to_sol (balance_lamports s) = Ok bs
    /\ balance s = py_round rt bs 9.
Proof.
  intros H. apply get_wallet_summary_inv in H.
  destruct H as (b & h1 & sigs & h2 & n & la & bs & Hb & _ & _ & _ & Hbs & ->).
  exists bs, h1. auto.
Qed.

(** X13. In a returned summary whose one-item lookup gave a list that
    starts with a dict carrying a true ["blockTime"], [last_active] is
    present and is the conversion of that block time. *)
Theorem summary_last_active_present (address : string) (h hf : history)
    (s : WalletSummary) :
  get_wallet_summary rt settings net address h = (Ok s, hf) ->
  exists b h1 sigs h2,
    get_balance rt settings net address h = (Ok b, h1)
    /\ get_signatures rt settings net address 1 h1 = (Ok sigs, h2)
    /\ (forall items rest bt,
          sigs = JList (JObj items :: rest) ->
          dict_get items "blockTime" = Some bt ->
          truthy bt = true ->
          exists d, fromtimestamp rt bt = Ok d /\ last_active s = Some d).
Proof.
  intros H. apply get_wallet_summary_inv in H.
  destruct H as (b & h1 & sigs & h2 & n & la & bs & Hb & Hs & _ & Hla & _ & ->).
  exists b, h1, sigs, h2. repeat split; try assumption.
  intros items rest bt -> Hbt Htrue. cbn [last_active].
  unfold summary_last_active in Hla.
  cbn [truthy py_len obind py_index0 py_get] in Hla.
  replace (Z.of_nat (List.length (JObj items :: rest)) >? 0) with true in Hla
    by (symmetry; apply Z.gtb_lt; cbn [List.length]; lia).
  cbn [obind] in Hla. rewrite Hbt, Htrue in Hla.
  unfold timestamp_to_datetime in Hla.
  destruct bt; try discriminate Htrue;
    (destruct (fromtimestamp rt _) as [d|e] eqn:Hd; [|discriminate Hla];
     exists d; split; [reflexivity|]; cbn in Hla; inversion Hla; reflexivity).
Qed.

End RouterResults.

Section RouterTraffic.

Variable rt : Runtime.
Variable settings : Settings.
Variable net : network.

(** A call that returned has posted its request between one and
    [max_retries] times and nothing else. *)
Lemma call_rpc_ok_posts (method : string) (params : list json) (h hf : history) (v : json) :
  _call_rpc rt settings net method params h = (Ok v, hf) ->
  exists n,
    (1 <= n <= Z.to_nat (max_retries settings))%nat
    /\ hf = (h ++ repeat (rpc_request method params) n)%list.
Proof.
  intros H. unfold _call_rpc in H.
  destruct (rpc_loop_posts rt settings net (rpc_request method params)
              (Z.to_nat (max_retries settings)) 0 h) as (n & Hh & Hn & _ & H1).
  rewrite H in Hh, H1. cbn [fst snd] in Hh, H1.
  exists n. split; [|exact Hh]. split; [eapply H1; reflexivity | exact Hn].
Qed.

(** X14. A summary that was returned took three calls and no other
    traffic: the balance request, the signature request with limit 1 and
    the signature request with limit 1000, in this order, each posted
    between one and [max_retries] times. *)
Theorem summary_posts_three_requests (address : string) (h hf : history)
    (s : WalletSummary) :
  get_wallet_summary rt settings net address h = (Ok s, hf) ->
  exists a b c,
    (1 <= a <= Z.to_nat (max_retries settings))%nat
    /\ (1 <= b <= Z.to_nat (max_retries settings))%nat
    /\ (1 <= c <= Z.to_nat (max_retries settings))%nat
    /\ hf = (h ++ repeat (balance_request address) a
               ++ repeat (signatures_request address 1) b
               ++ repeat (signatures_request address 1000) c)%list.
Proof.
  intros H. apply get_wallet_summary_inv in H.
  destruct H as (bal & h1 & sigs & h2 & n & la & bs & Hb & Hs & Hn & _ & _ & _).
  (* the balance call *)
  unfold get_balance in Hb. destruct (String.eqb address ""); [discriminate|].
  apply reraise_ok_inv in Hb. apply bind_ok_inv in Hb.
  destruct Hb as (r1 & h1' & Hc1 & Hk1).
  assert (h1 = h1') as <-.
  { destruct r1;
      ((apply lift_ok_inv in Hk1; destruct Hk1 as [_ ->]; reflexivity)
       || (inversion Hk1; reflexivity)). }
  apply call_rpc_ok_posts in Hc1. destruct Hc1 as (a & Ha & ->).
  (* the one-item lookup *)
  unfold get_signatures in Hs. destruct (String.eqb address ""); [discriminate|].
  cbn [Z.ltb Z.gtb Z.compare Pos.compare Pos.compare_cont orb] in Hs.
  apply reraise_ok_inv in Hs. apply bind_ok_inv in Hs.
  destruct Hs as (r2 & h2' & Hc2 & Hk2).
  inversion Hk2. subst h2'.
  apply call_rpc_ok_posts in Hc2. destruct Hc2 as (b & Hb & ->).
  (* the count *)
  apply get_transaction_count_inv in Hn. destruct Hn as (_ & r3 & Hc3 & _).
  apply call_rpc_ok_posts in Hc3. destruct Hc3 as (c & Hc & ->).
  exists a, b, c. repeat split; try lia.
  rewrite <- !app_assoc. reflexivity.
Qed.

(** With an endpoint whose attempts never time out or fail to connect,
    a call posts exactly once. *)
Lemma call_rpc_single_post (method : string) (params : list json) (h : history) :
  0 < max_retries settings ->
  (forall h' p, transport_failure (net h' p) = false) ->
  snd (_call_rpc rt settings net method params h)
  = (h ++ [rpc_request method params])%list.
Proof.
  intros Hpos Hnf. unfold _call_rpc.
  destruct (Z.to_nat (max_retries settings)) as [|k] eqn:Hk; [lia|].
  cbn [rpc_loop]. destruct (Z.ltb_spec 0 (max_retries settings)); [|lia].
  specialize (Hnf h (rpc_request method params)).
  destruct (net h (rpc_request method params)); try discriminate Hnf; reflexivity.
Qed.

Lemma reraise_history {A} (what : string) (c : M A) (h : history) :
  snd (reraise_as_rpc_error what c h) = snd (c h).
Proof.
  unfold reraise_as_rpc_error, try_except.
  destruct (c h) as [[a|e] h1]; [reflexivity|].
  destruct (negb (is_SolanaRPCError e)); reflexivity.
Qed.

Lemma route_errors_history {A} (c : M A) (h : history) :
  snd (route_errors c h) = snd (c h).
Proof.
  unfold route_errors, try_except.
  destruct (c h) as [[a|e] h1]; [reflexivity|]. destruct e; reflexivity.
Qed.

(** The posts of one iteration on a dict entry: the details request when
    the entry carries a signature, nothing otherwise. *)
Lemma entry_body_history (items : list (string * json)) (h : history) :
  0 < max_retries settings ->
  (forall h' p, transport_failure (net h' p) = false) ->
  snd (entry_body rt settings net (JObj items) h)
  = (h ++ details_requests [JObj items])%list.
Proof.
  intros Hpos Hnf. unfold entry_body, details_requests.
  cbn [py_get filter map entry_signature]. unfold bind at 1. cbn [lift].
  set (sg := match dict_get items "signature" with Some v => v | None => JNull end).
  destruct (truthy sg) eqn:Ht; cbn [negb map].
  - unfold bind.
    assert (Hh : snd (get_transaction_details rt settings net sg h)
                 = (h ++ [details_request sg])%list).
    { unfold get_transaction_details. rewrite Ht. cbn [negb].
      rewrite reraise_history. apply call_rpc_single_post; assumption. }
    destruct (get_transaction_details rt settings net sg h) as [[d|e] h1];
      cbn [snd] in Hh; subst h1; [|reflexivity].
    destruct d; try reflexivity;
      (unfold lift, ret;
       destruct (build_transaction rt (JObj items) sg _); reflexivity).
  - cbn. rewrite app_nil_r. reflexivity.
Qed.

Lemma details_requests_cons (sd : json) (entries : list json) :
  details_requests (sd :: entries)
  = (details_requests [sd] ++ details_requests entries)%list.
Proof.
  unfold details_requests. cbn [filter].
  destruct (truthy (entry_signature sd)); reflexivity.
Qed.

Lemma run_entries_history (entries : list json) :
  0 < max_retries settings ->
  (forall h' p, transport_failure (net h' p) = false) ->
  forallb is_dict entries = true ->
  forall h,
    snd (run_entries rt settings net entries h)
    = (h ++ details_requests entries)%list.
Proof.
  intros Hpos Hnf. induction entries as [|sd entries IH]; intros Hd h.
  - cbn. rewrite app_nil_r. reflexivity.
  - cbn [forallb] in Hd. apply andb_prop in Hd. destruct Hd as [Hsd Hd].
    destruct sd; try discriminate Hsd.
    cbn [run_entries].
    assert (Hb := entry_body_history items h Hpos Hnf).
    destruct (entry_body rt settings net (JObj items) h) as [r h1]. cbn [snd] in Hb.
    specialize (IH Hd h1).
    destruct (run_entries rt settings net entries h1) as [rs hf]. cbn [snd] in *.
    rewrite IH, Hb, (details_requests_cons (JObj items) entries), <- app_assoc.
    reflexivity.
Qed.

(** X15. Against an endpoint whose attempts never time out or fail to
    connect, the transactions route fetches the details one entry after
    the other: after the signature lookup it posts one details request
    for each entry that carries a signature, in the order of the list,
    none for the others, and nothing else, whether the request ends in a
    list or in an error. *)
Theorem transactions_fetch_in_order (address : string) (limit : Z) (h h1 : history)
    (entries : list json) :
  0 < max_retries settings ->
  (forall h' p, transport_failure (net h' p) = false) ->
  address_rejected address = false ->
  get_signatures rt settings net address limit h = (Ok (JList entries), h1) ->
  forallb is_dict entries = true ->
  h1 = (h ++ [signatures_request address limit])%list
  /\ snd (get_wallet_transactions rt settings net address limit h)
     = (h ++ signatures_request address limit :: details_requests entries)%list.
Proof.
  intros Hpos Hnf Hrej Hs Hd.
  assert (Hh1 : h1 = (h ++ [signatures_request address limit])%list).
  { assert (Hsnd : snd (get_signatures rt settings net address limit h) = h1)
      by (rewrite Hs; reflexivity).
    unfold get_signatures in Hsnd, Hs.
    destruct (String.eqb address ""); [discriminate Hs|].
    destruct ((limit <? 1) || (limit >? 1000)); [discriminate Hs|].
    rewrite reraise_history in Hsnd. unfold bind in Hsnd.
    assert (Hc := call_rpc_single_post "getSignaturesForAddress"
                    [JStr address; JObj [("limit", JInt limit)]] h Hpos Hnf).
    destruct (_call_rpc rt settings net "getSignaturesForAddress"
                [JStr address; JObj [("limit", JInt limit)]] h) as [[v|e] h2];
      cbn [snd] in *; subst; reflexivity. }
  split; [exact Hh1|].
  unfold get_wallet_transactions. rewrite Hrej, route_errors_history.
  rewrite (bind_ok _ _ _ _ _ Hs).
  destruct entries as [|sd entries'].
  - cbn [truthy negb lift snd details_requests filter map]. exact Hh1.
  - cbn [truthy negb py_iter]. unfold bind at 1. cbn [lift].
    unfold bind. rewrite (process_entries_dicts rt settings net _ Hd).
    rewrite (run_entries_history _ Hpos Hnf Hd). cbn [lift snd].
    rewrite Hh1, <- app_assoc. reflexivity.
Qed.

End RouterTraffic.

Section Records.

Variable rt : Runtime.
Variable settings : Settings.
Variable net : network.

Lemma new_Transaction_fields (sg : json) (bt : datetime) (sl : json) (st : string)
    (f : json) (t : Transaction) :
  new_Transaction rt sg bt sl st f = Ok t ->
  sg = JStr (signature t) /\ block_time t = bt
  /\ validate_int rt sl = Some (slot t) /\ validate_int rt f = Some (fee t).
Proof.
  unfold new_Transaction.
  destruct sg; cbn [validate_str];
    destruct (validate_int rt sl), (validate_int rt f);
    intros H; inversion H; auto.
Qed.

(** X16. The fields of a record that was built: the signature is the
    string the entry carries; slot and fee are those of the entry and of
    the ["meta"] of the details, and 0 when the entry has no ["slot"],
    when the details have no ["meta"] or the ["meta"] has no ["fee"]; the
    block time is the conversion of the entry's ["blockTime"], and that
    of 0, the epoch, when the entry has none or a null one. *)
Theorem built_record_fields (sig_data sg tx_details : json) (t : Transaction) :
  build_transaction rt sig_data sg tx_details = Ok t ->
  exists sitems ditems,
    sig_data = JObj sitems /\ tx_details = JObj ditems
    /\ sg = JStr (signature t)
    /\ (dict_get sitems "slot" = None -> slot t = 0)
    /\ (forall z, dict_get sitems "slot" = Some (JInt z) -> slot t = z)
    /\ (dict_get ditems "meta" = None -> fee t = 0)
    /\ (forall m, dict_get ditems "meta" = Some (JObj m) ->
        dict_get m "fee" = None -> fee t = 0)
    /\ (forall m z, dict_get ditems "meta" = Some (JObj m) ->
        dict_get m "fee" = Some (JInt z) -> fee t = z)
    /\ (dict_get sitems "blockTime" = None
        \/ dict_get sitems "blockTime" = Some JNull ->
        fromtimestamp rt (JInt 0) = Ok (block_time t))
    /\ (forall v, dict_get sitems "blockTime" = Some v -> v <> JNull ->
        fromtimestamp rt v = Ok (block_time t)).
Proof.
  intros H. unfold build_transaction in H.
  apply obind_ok_inv in H. destruct H as (meta & Hmeta & H).
  apply obind_ok_inv in H. destruct H as (f & Hfee & H).
  apply obind_ok_inv in H. destruct H as (err & _ & H).
  cbv zeta in H.
  apply obind_ok_inv in H. destruct H as (bt & Hbt & H).
  apply obind_ok_inv in H. destruct H as (btd & Hbtd & H).
  apply obind_ok_inv in H. destruct H as (sl & Hsl & H).
  apply obind_ok_inv in H. destruct H as (arg & Harg & H).
  destruct arg as [d|]; [|discriminate].
  apply new_Transaction_fields in H. destruct H as (Hsg & Hd & Hslot & Hf).
  destruct tx_details as [| | | | | |ditems]; try discriminate Hmeta.
  destruct sig_data as [| | | | | |sitems]; try discriminate Hbt.
  exists sitems, ditems.
  cbn [py_get] in Hmeta, Hbt, Hsl.
  inversion Hmeta as [Hm]. inversion Hbt as [Hb]. inversion Hsl as [Hs].
  clear Hmeta Hbt Hsl.
  split; [reflexivity|]. split; [reflexivity|]. split; [exact Hsg|].
  split; [|split; [|split; [|split; [|split; [|split]]]]].
  - intros Hnone. rewrite Hnone in Hs. subst sl. cbn in Hslot. congruence.
  - intros z Hz. rewrite Hz in Hs. subst sl. cbn in Hslot. congruence.
  - intros Hnone. rewrite Hnone in Hm. subst meta. cbn in Hfee.
    inversion Hfee. subst f. cbn in Hf. congruence.
  - intros m Hsome Hnone. rewrite Hsome in Hm. subst meta.
    destruct m as [|kv m'].
    + cbn in Hfee. inversion Hfee. subst f. cbn in Hf. congruence.
    + cbn [truthy py_get] in Hfee. rewrite Hnone in Hfee.
      inversion Hfee. subst f. cbn in Hf. congruence.
  - intros m z Hsome Hz. rewrite Hsome in Hm. subst meta.
    destruct m as [|kv m']; [discriminate Hz|].
    cbn [truthy py_get] in Hfee. rewrite Hz in Hfee.
    inversion Hfee. subst f. cbn in Hf. congruence.
  - intros Habsent.
    assert (bt = JNull) as ->
      by (destruct Habsent as [Hn|Hn]; rewrite Hn in Hb; congruence).
    cbn in Hbtd. inversion Hbtd. subst btd.
    unfold timestamp_to_datetime in Harg.
    destruct (fromtimestamp rt (JInt 0)) as [d0|e0]; [|discriminate Harg].
    cbn in Harg. congruence.
  - intros v Hv Hnn. rewrite Hv in Hb. subst bt.
    unfold timestamp_to_datetime in Hbtd.
    destruct v; try contradiction;
      (destruct (fromtimestamp rt _) as [d0|e0]; [|discriminate Hbtd];
       cbn in Hbtd; inversion Hbtd; subst btd; inversion Harg; congruence).
Qed.

Lemma process_entries_app (l1 l2 : list json) :
  forall acc h,
    process_entries rt settings net (l1 ++ l2) acc h
    = match process_entries rt settings net l1 acc h with
      | (Ok acc', h') => process_entries rt settings net l2 acc' h'
      | (Raise e, h') => (Raise e, h')
      end.
Proof.
  induction l1 as [|sd l1 IH]; intros acc h; [reflexivity|].
  cbn [app process_entries]. unfold bind.
  destruct (process_entry rt settings net sd h) as [[r|e] h1]; [|reflexivity].
  apply IH.
Qed.

(** X17. An entry that is not a dict stops the whole request: when the
    entries before it are dicts, the route processes those, fails on the
    handler's own [sig_data.get] for this one, fetches nothing for the
    entries after it and answers 500. *)
Theorem non_dict_entry_aborts (address : string) (limit : Z) (h h1 : history)
    (before after : list json) (bad : json) :
  address_rejected address = false ->
  get_signatures rt settings net address limit h
  = (Ok (JList (before ++ bad :: after)), h1) ->
  forallb is_dict before = true ->
  is_dict bad = false ->
  get_wallet_transactions rt settings net address limit h
  = (Raise (HTTPException 500
              ("Internal server error: '" ++ type_name bad
                 ++ "' object has no attribute 'get'")),
     snd (run_entries rt settings net before h1)).
Proof.
  intros Hrej Hs Hd Hbad. unfold get_wallet_transactions. rewrite Hrej.
  assert (Hinner :
    (signatures <- get_signatures rt settings net address limit ;;
     if negb (truthy signatures) then
       lift (new_TransactionList rt address [] 0)
     else
       entries <- lift (py_iter signatures) ;;
       transactions <- process_entries rt settings net entries [] ;;
       lift (new_TransactionList rt address transactions
               (Z.of_nat (List.length transactions)))) h
    = (Raise (AttributeError bad "get"), snd (run_entries rt settings net before h1))).
  { rewrite (bind_ok _ _ _ _ _ Hs).
    assert (Ht : truthy (JList (before ++ bad :: after)) = true)
      by (destruct before; reflexivity).
    rewrite Ht. cbn [negb py_iter]. unfold bind at 1. cbn [lift].
    apply bind_raise. rewrite process_entries_app.
    rewrite (process_entries_dicts rt settings net _ Hd).
    cbn [process_entries]. apply bind_raise.
    unfold process_entry, try_except, entry_body, bind, lift.
    destruct bad; try discriminate Hbad; reflexivity. }
  rewrite (route_errors_raise _ _ _ _ Hinner). reflexivity.
Qed.

End Records.

(** ** The address validator *)

(** The alphabet is the letters and digits without the four ambiguous
    characters. *)
Lemma base58_char_spec (c : ascii) :
  str_contains (String c EmptyString) base58_chars
  = is_alnum c && negb (is_ambiguous c).
Proof.
  destruct c as [[] [] [] [] [] [] [] []]; vm_compute; reflexivity.
Qed.

(** X18. The validator accepts exactly the strings of 32 to 44 characters
    that are all ASCII letters or digits other than [0], [O], [I] and
    [l], and returns an accepted string as it is. *)
Theorem validate_address_accepts (v : string) :
  (validate_address v = Ok v
   <-> 32 <= len_str v <= 44
       /\ forallb (fun c => is_alnum c && negb (is_ambiguous c))
                  (list_ascii_of_string v) = true)
  /\ (forall w, validate_address v = Ok w -> w = v).
Proof.
  assert (Hall : all_base58 v
                 = forallb (fun c => is_alnum c && negb (is_ambiguous c))
                           (list_ascii_of_string v)).
  { unfold all_base58. induction (list_ascii_of_string v) as [|c l IH];
      [reflexivity|]. cbn [forallb]. rewrite IH, base58_char_spec. reflexivity. }
  split; [split|].
  - intros H. apply validate_address_ok in H. rewrite <- Hall. tauto.
  - intros [Hlen Hchars]. unfold validate_address.
    destruct (String.eqb_spec v "") as [->|_]; [cbn in Hlen; lia|].
    destruct (Z.ltb_spec (len_str v) 32); [lia|].
    destruct (Z.gtb_spec (len_str v) 44); [lia|].
    cbn [orb]. rewrite Hall, Hchars. reflexivity.
  - intros w H. apply validate_address_ok in H. tauto.
Qed.

(** X19. The validator of the response models is the check of the routes
    together with the alphabet: an address is accepted by the validator
    exactly when the routes let it pass and all its characters are
    base58, so the routes let pass every address of a valid length that
    the validator then refuses for a character. *)
Theorem validator_refines_route_check (v : string) :
  (validate_address v = Ok v
   <-> address_rejected v = false /\ all_base58 v = true)
  /\ (address_rejected v = false -> all_base58 v = false ->
      validate_address v
      = Raise (ValueError "Invalid Solana address: contains non-base58 characters")).
Proof.
  unfold validate_address, address_rejected.
  destruct (String.eqb_spec v "") as [->|Hne]; cbn [orb].
  - split; [split; [discriminate | intros [H _]; discriminate H] | discriminate].
  - destruct ((len_str v <? 32) || (len_str v >? 44)); cbn [orb].
    + split; [split; [discriminate | intros [H _]; discriminate H] | discriminate].
    + destruct (all_base58 v); cbn [negb].
      * split; [split; auto | discriminate].
      * split; [split; [discriminate | intros [_ H]; discriminate H] | reflexivity].
Qed.

(** ** The unit converter *)

Lemma Zdigits2_nonneg (m : Z) : 0 <= Zdigits2 m.
Proof. destruct m; cbn; lia. Qed.

Lemma digits2_pos_bound (p : positive) :
  forall k, 0 <= k -> Zpos p < 2 ^ k -> Zpos (digits2_pos p) <= k.
Proof.
  induction p as [p IH|p IH|]; intros k Hk Hlt.
  - assert (k <> 0) by (intros ->; cbn in Hlt; lia).
    replace k with (Z.succ (k - 1)) in Hlt by lia.
    rewrite Z.pow_succ_r in Hlt by lia.
    cbn [digits2_pos]. specialize (IH (k - 1)). lia.
  - assert (k <> 0) by (intros ->; cbn in Hlt; lia).
    replace k with (Z.succ (k - 1)) in Hlt by lia.
    rewrite Z.pow_succ_r in Hlt by lia.
    cbn [digits2_pos]. specialize (IH (k - 1)). lia.
  - assert (k <> 0) by (intros ->; cbn in Hlt; lia).
    cbn. lia.
Qed.

Lemma Zdigits2_bound (m k : Z) :
  0 <= k -> 0 <= m < 2 ^ k -> Zdigits2 m <= k.
Proof.
  intros Hk [Hm Hlt]. destruct m as [|p|p]; cbn [Zdigits2]; try lia.
  apply digits2_pos_bound; assumption.
Qed.

Lemma shr_1_bound (mrs : shr_record) :
  0 <= shr_m mrs -> 0 <= shr_m (shr_1 mrs) <= shr_m mrs.
Proof.
  destruct mrs as [m r s]. cbn [shr_m]. intros Hm.
  destruct m as [|[p|p|]|p]; cbn; lia.
Qed.

Lemma iter_shr_1_bound (p : positive) :
  forall mrs, 0 <= shr_m mrs ->
    0 <= shr_m (iter_pos shr_1 p mrs) <= shr_m mrs.
Proof.
  induction p as [p IH|p IH|]; intros mrs Hm; cbn [iter_pos].
  - pose proof (shr_1_bound mrs Hm) as H1.
    pose proof (IH (shr_1 mrs) ltac:(lia)) as H2.
    pose proof (IH (iter_pos shr_1 p (shr_1 mrs)) ltac:(lia)) as H3. lia.
  - pose proof (IH mrs Hm) as H2.
    pose proof (IH (iter_pos shr_1 p mrs) ltac:(lia)) as H3. lia.
  - apply shr_1_bound. exact Hm.
Qed.

(** Shifting to the exponent of the format: the mantissa does not grow
    and the exponent is the old one or the one of the format. *)
Lemma shr_fexp_bound (m e : Z) (l : location) :
  0 <= m ->
  0 <= shr_m (fst (shr_fexp prec emax m e l)) <= m
  /\ snd (shr_fexp prec emax m e l) <= Z.max e (fexp prec emax (Zdigits2 m + e)).
Proof.
  intros Hm. unfold shr_fexp, shr.
  assert (Hrec : shr_m (shr_record_of_loc m l) = m)
    by (destruct l as [|[]]; reflexivity).
  destruct (fexp prec emax (Zdigits2 m + e) - e) as [|p|p] eqn:Hn; cbn [fst snd].
  - rewrite Hrec. lia.
  - pose proof (iter_shr_1_bound p (shr_record_of_loc m l)) as Hb.
    rewrite Hrec in Hb. lia.
  - rewrite Hrec. lia.
Qed.

Lemma round_nearest_even_bound (m : Z) (l : location) :
  m <= round_nearest_even m l <= m + 1.
Proof.
  destruct l as [|[]]; cbn [round_nearest_even]; try lia.
  destruct (Z.even m); lia.
Qed.

Lemma fexp_le (x y : Z) : x <= y -> fexp prec emax x <= Z.max (y - 53) (-1074).
Proof. unfold fexp, emin, prec, emax. lia. Qed.

(** Rounding a mantissa below 2^146 at an exponent of at most 0 never
    overflows. *)
Lemma binary_round_aux_finite (s : bool) (mx ex : Z) (lx : location) :
  0 <= mx < 2 ^ 146 -> ex <= 0 ->
  forall s', binary_round_aux prec emax s mx ex lx <> S754_infinity s'.
Proof.
  intros [Hm Hlt] Hex s'. unfold binary_round_aux.
  pose proof (shr_fexp_bound mx ex lx Hm) as [Hm1 He1].
  destruct (shr_fexp prec emax mx ex lx) as [mrs' e'] eqn:H1. cbn [fst snd] in *.
  pose proof (round_nearest_even_bound (shr_m mrs') (loc_of_shr_record mrs')) as Hr.
  set (m2 := round_nearest_even (shr_m mrs') (loc_of_shr_record mrs')) in *.
  pose proof (shr_fexp_bound m2 e' loc_Exact ltac:(lia)) as [Hm2 He2].
  destruct (shr_fexp prec emax m2 e' loc_Exact) as [mrs'' e''] eqn:H2.
  cbn [fst snd] in *.
  assert (Hd1 : Zdigits2 mx <= 146) by (apply Zdigits2_bound; lia).
  assert (Hd2 : Zdigits2 m2 <= 147).
  { apply Zdigits2_bound; [lia|].
    replace (2 ^ 147) with (2 * 2 ^ 146) by reflexivity. lia. }
  pose proof (fexp_le (Zdigits2 mx + ex) 146 ltac:(lia)) as Hf1.
  assert (He' : e' <= 93) by lia.
  pose proof (fexp_le (Zdigits2 m2 + e') 240 ltac:(lia)) as Hf2.
  assert (He'' : e'' <= 187) by lia.
  destruct (shr_m mrs'') as [|p|p]; try discriminate.
  destruct (Z.leb_spec e'' (emax - prec)) as [_|Hgt]; [discriminate|].
  unfold emax, prec in Hgt. lia.
Qed.

(** The quotient the division rounds, for a dividend below 2^64 and the
    divisor 10^9. *)
Lemma div_core_bound (m : positive) :
  Zpos m < 2 ^ 64 ->
  let '(q, e, _) := SFdiv_core_binary prec emax (Zpos m) 0 LAMPORTS_PER_SOL 0 in
  0 <= q < 2 ^ 146 /\ e <= 0.
Proof.
  intros Hm. unfold SFdiv_core_binary.
  change (Zdigits2 LAMPORTS_PER_SOL) with 30.
  set (e' := Z.min (fexp prec emax (Zdigits2 (Zpos m) + 0 - (30 + 0))) (0 - 0)).
  assert (He : -82 <= e' <= 0).
  { unfold e', fexp, emin, prec, emax. cbn [Zdigits2].
    pose proof (Pos2Z.is_pos (digits2_pos m)). lia. }
  set (m' := match 0 - 0 - e' with
             | 0 => Zpos m
             | Zpos _ => Z.shiftl (Zpos m) (0 - 0 - e')
             | Zneg _ => 0
             end).
  assert (Hm' : 0 <= m' < 2 ^ 146).
  { unfold m'. destruct (0 - 0 - e') as [|p|p] eqn:Hs.
    - split; [lia|]. eapply Z.lt_trans; [exact Hm | reflexivity].
    - rewrite Z.shiftl_mul_pow2 by lia.
      assert (Hp : 2 ^ Zpos p <= 2 ^ 82) by (apply Z.pow_le_mono_r; lia).
      assert (0 < 2 ^ Zpos p) by (apply Z.pow_pos_nonneg; lia).
      split; [nia|].
      replace (2 ^ 146) with (2 ^ 64 * 2 ^ 82) by reflexivity. nia.
    - split; [lia | reflexivity]. }
  pose proof (Z_div_mod m' LAMPORTS_PER_SOL ltac:(reflexivity)) as Hdiv.
  destruct (Z.div_eucl m' LAMPORTS_PER_SOL) as [q r].
  destruct Hdiv as [Hq Hr]. unfold LAMPORTS_PER_SOL in *.
  split; [|lia]. split; nia.
Qed.

(** X20. The converter never fails on a 64-bit balance: for every integer
    of absolute value below 2^64 [lamports_to_sol] returns a float, which
    is neither an infinity nor a NaN. *)
Theorem lamports_to_sol_returns (lamports : Z) :
  - 2 ^ 64 < lamports < 2 ^ 64 ->
  exists x,
    lamports_to_sol lamports = Ok x
    /\ (forall s, x <> S754_infinity s) /\ x <> S754_nan.
Proof.
  intros Hrange. unfold lamports_to_sol, py_truediv.
  change (LAMPORTS_PER_SOL =? 0) with false. cbv iota.
  destruct lamports as [|m|m].
  - cbn. eexists. split; [reflexivity|]. split; [intros s|]; discriminate.
  - assert (Hm : Zpos m < 2 ^ 64) by lia.
    pose proof (div_core_bound m Hm) as Hcore.
    change (float_of_int (Zpos m)) with (S754_finite false m 0).
    change (float_of_int LAMPORTS_PER_SOL) with (S754_finite false 1000000000 0).
    cbn [SFdiv].
    change (Zpos 1000000000) with LAMPORTS_PER_SOL.
    destruct (SFdiv_core_binary prec emax (Zpos m) 0 LAMPORTS_PER_SOL 0)
      as [[q e] l].
    destruct Hcore as [Hq He].
    pose proof (binary_round_aux_finite (xorb false false) q e l Hq He) as Hfin.
    destruct (binary_round_aux prec emax (xorb false false) q e l) as [s|s| |s mm ee] eqn:Hr.
    + eexists. split; [reflexivity|]. split; [intros s0|]; discriminate.
    + exfalso. exact (Hfin s eq_refl).
    + exfalso. unfold binary_round_aux in Hr.
      destruct (shr_fexp prec emax q e l) as [mrs' e'] eqn:H1.
      pose proof (shr_fexp_bound q e l ltac:(lia)) as [Hm1 _].
      rewrite H1 in Hm1. cbn [fst] in Hm1.
      pose proof (round_nearest_even_bound (shr_m mrs') (loc_of_shr_record mrs')) as Hrn.
      pose proof (shr_fexp_bound
                    (round_nearest_even (shr_m mrs') (loc_of_shr_record mrs'))
                    e' loc_Exact ltac:(lia)) as [Hm2 _].
      destruct (shr_fexp prec emax
                  (round_nearest_even (shr_m mrs') (loc_of_shr_record mrs'))
                  e' loc_Exact) as [mrs'' e''].
      cbn [fst] in Hm2.
      destruct (shr_m mrs'') as [|p|p]; try discriminate Hr; [|lia].
      destruct (e'' <=? emax - prec); discriminate Hr.
    + eexists. split; [reflexivity|]. split; [intros s0|]; discriminate.
  - assert (Hm : Zpos m < 2 ^ 64) by lia.
    pose proof (div_core_bound m Hm) as Hcore.
    change (float_of_int (Zneg m)) with (S754_finite true m 0).
    change (float_of_int LAMPORTS_PER_SOL) with (S754_finite false 1000000000 0).
    cbn [SFdiv].
    change (Zpos 1000000000) with LAMPORTS_PER_SOL.
    destruct (SFdiv_core_binary prec emax (Zpos m) 0 LAMPORTS_PER_SOL 0)
      as [[q e] l].
    destruct Hcore as [Hq He].
    pose proof (binary_round_aux_finite (xorb true false) q e l Hq He) as Hfin.
    destruct (binary_round_aux prec emax (xorb true false) q e l) as [s|s| |s mm ee] eqn:Hr.
    + eexists. split; [reflexivity|]. split; [intros s0|]; discriminate.
    + exfalso. exact (Hfin s eq_refl).
    + exfalso. unfold binary_round_aux in Hr.
      destruct (shr_fexp prec emax q e l) as [mrs' e'] eqn:H1.
      pose proof (shr_fexp_bound q e l ltac:(lia)) as [Hm1 _].
      rewrite H1 in Hm1. cbn [fst] in Hm1.
      pose proof (round_nearest_even_bound (shr_m mrs') (loc_of_shr_record mrs')) as Hrn.
      pose proof (shr_fexp_bound
                    (round_nearest_even (shr_m mrs') (loc_of_shr_record mrs'))
                    e' loc_Exact ltac:(lia)) as [Hm2 _].
      destruct (shr_fexp prec emax
                  (round_nearest_even (shr_m mrs') (loc_of_shr_record mrs'))
                  e' loc_Exact) as [mrs'' e''].
      cbn [fst] in Hm2.
      destruct (shr_m mrs'') as [|p|p]; try discriminate Hr; [|lia].
      destruct (e'' <=? emax - prec); discriminate Hr.
    + eexists. split; [reflexivity|]. split; [intros s0|]; discriminate.
Qed.

(** ** Further concrete runs *)

(** A first attempt that times out and a second that is answered: two
    posts of the balance request. *)
Lemma call_rpc_posts_bounded_witness :
  exists n,
    snd (_call_rpc plain_runtime default_settings slow_start_chain
           "getBalance" [JStr example_address] [])
    = repeat (balance_request example_address) n
    /\ (1 <= n <= 3)%nat.
Proof.
  destruct (call_rpc_posts_bounded plain_runtime default_settings slow_start_chain
              "getBalance" [JStr example_address] []) as (n & Hh & Hmax & Hone).
  exists n. split; [exact Hh|]. split.
  - eapply Hone. vm_compute. reflexivity.
  - cbn in Hmax. lia.
Defined.

Lemma call_rpc_returns_result_witness :
  _call_rpc plain_runtime default_settings slow_start_chain
    "getBalance" [JStr example_address] []
  = (Ok (JObj [("context", JObj [("slot", JInt 1)]); ("value", JInt 1420000000)]),
     [balance_request example_address; balance_request example_address]).
Proof.
  apply (call_rpc_returns_result plain_runtime default_settings slow_start_chain
           "getBalance" [JStr example_address] [] 1
           [("jsonrpc", JStr "2.0");
            ("result", JObj [("context", JObj [("slot", JInt 1)]);
                             ("value", JInt 1420000000)]);
            ("id", JInt 1)]).
  - vm_compute. lia.
  - intros j Hj. assert (j = O) as -> by lia. reflexivity.
  - reflexivity.
  - reflexivity.
Defined.

(** A body that is not JSON leaves [get_balance] as a [SolanaRPCError]. *)
Lemma client_raises_only_rpc_errors_witness :
  get_balance plain_runtime default_settings garbled_chain example_address []
  = (Raise (SolanaRPCError "Failed to fetch balance: Expecting value"),
     [balance_request example_address])
  /\ is_SolanaRPCError (SolanaRPCError "Failed to fetch balance: Expecting value") = true.
Proof.
  split; [reflexivity|].
  apply (proj1 (client_raises_only_rpc_errors plain_runtime default_settings garbled_chain
                  (SolanaRPCError "Failed to fetch balance: Expecting value")
                  [] [balance_request example_address]) example_address).
  reflexivity.
Defined.

Lemma transaction_count_matches_signatures_witness :
  get_transaction_count plain_runtime default_settings example_chain example_address []
  = (Ok 37, [signatures_request example_address 1000]).
Proof.
  apply (proj2 (transaction_count_matches_signatures plain_runtime default_settings
                  example_chain example_address []
                  [signatures_request example_address 1000]
                  (repeat (signature_entry "S1" 1 (JInt 1768000000)) 37)
                  ltac:(discriminate) eq_refl)).
Defined.


Lemma summary_failures_are_http_witness :
  get_wallet_summary plain_runtime default_settings refusing_chain example_address []
  = (Raise (HTTPException 503 "Solana RPC error: RPC error: Invalid param: WrongSize"),
     [balance_request example_address])
  /\ handle_exception
       (HTTPException 503 "Solana RPC error: RPC error: Invalid param: WrongSize")
     = {| response_status := 503;
          content := JObj [("error",
                            JStr "Solana RPC error: RPC error: Invalid param: WrongSize")] |}.
Proof.
  destruct (summary_failures_are_http plain_runtime default_settings refusing_chain
              example_address [] [balance_request example_address]
              (HTTPException 503 "Solana RPC error: RPC error: Invalid param: WrongSize"))
    as (code & detail & He & _ & _ & Hresp).
  - intros v e' H. destruct v; cbn in H; inversion H; reflexivity.
  - reflexivity.
  - split; [reflexivity|]. injection He as <- <-. exact Hresp.
Defined.

Lemma routes_without_retries_witness :
  get_wallet_summary plain_runtime no_retry_settings example_chain example_address []
  = (Raise (HTTPException 503 "Solana RPC error: Max retries exceeded"), [])
  /\ get_wallet_transactions plain_runtime no_retry_settings example_chain
       example_address 10 []
     = (Raise (HTTPException 503 "Solana RPC error: Max retries exceeded"), []).
Proof.
  apply (routes_without_retries plain_runtime no_retry_settings example_chain
           example_address 10 []).
  - cbn. lia.
  - reflexivity.
  - lia.
Defined.

Lemma routes_unusable_answer_witness :
  get_wallet_summary plain_runtime default_settings always_503 example_address []
  = (Raise (HTTPException 503
              "Solana RPC error: Failed to fetch balance: Server error '503 Service Unavailable'"),
     [balance_request example_address]).
Proof.
  apply (proj1 (routes_unusable_answer plain_runtime default_settings always_503
                  example_address 10 [] "Server error '503 Service Unavailable'"
                  ltac:(cbn; lia) eq_refl ltac:(lia))).
  left. reflexivity.
Defined.

Lemma summary_transport_exhausted_witness :
  get_wallet_summary plain_runtime default_settings always_timeout example_address []
  = (Raise (HTTPException 503
              "Solana RPC error: RPC request timed out after 3 retries"),
     repeat (balance_request example_address) 3).
Proof.
  apply (summary_transport_exhausted plain_runtime default_settings always_timeout
           example_address []).
  - cbn. lia.
  - reflexivity.
  - intros j Hj. reflexivity.
Defined.

Lemma transactions_count_is_length_witness :
  exists r hf,
    get_wallet_transactions plain_runtime default_settings flaky_chain example_address 10 []
    = (Ok r, hf)
    /\ count r = Z.of_nat (List.length (transactions r))
    /\ (List.length (transactions r) <= 3)%nat.
Proof.
  eexists. eexists. split; [vm_compute; reflexivity|].
  match goal with
  | |- count ?r = _ /\ _ =>
      destruct (transactions_count_is_length plain_runtime default_settings flaky_chain
                  example_address 10 [] _ r eq_refl)
        as (Hcount & sigs & h1 & Hs & Hlen)
  end.
  split; [exact Hcount|].
  vm_compute in Hs. inversion Hs as [[Hsigs Hh1]].
  apply (Hlen _ (eq_sym Hsigs)).
Defined.

Lemma returned_objects_carry_valid_address_witness :
  exists s hf,
    get_wallet_summary plain_runtime default_settings example_chain example_address []
    = (Ok s, hf)
    /\ summary_address s = example_address
    /\ all_base58 example_address = true.
Proof.
  eexists. eexists. split; [vm_compute; reflexivity|].
  match goal with
  | |- summary_address ?s = _ /\ _ =>
      destruct (proj1 (returned_objects_carry_valid_address plain_runtime
                         default_settings example_chain example_address 10 [] _)
                  s eq_refl) as (Ha & _ & Hb)
  end.
  split; [exact Ha | exact Hb].
Defined.

Lemma summary_balance_fields_agree_witness :
  exists s hf,
    get_wallet_summary plain_runtime default_settings example_chain example_address []
    = (Ok s, hf)
    /\ balance_lamports s = 1420000000
    /\ balance s = float_literal 142 2.
Proof.
  eexists. eexists. split; [vm_compute; reflexivity|].
  match goal with
  | |- balance_lamports ?s = _ /\ _ =>
      destruct (summary_balance_fields_agree plain_runtime default_settings example_chain
                  example_address [] _ s eq_refl) as (bs & h1 & _ & Hbs & Hbal)
  end.
  split; [reflexivity|]. rewrite Hbal.
  vm_compute in Hbs. inversion Hbs. vm_compute. reflexivity.
Defined.

Lemma summary_last_active_present_witness :
  exists s hf,
    get_wallet_summary plain_runtime default_settings example_chain example_address []
    = (Ok s, hf)
    /\ last_active s = Some {| unix_micros := 1768000000000000 |}.
Proof.
  eexists. eexists. split; [vm_compute; reflexivity|].
  match goal with
  | |- last_active ?s = _ =>
      destruct (summary_last_active_present plain_runtime default_settings example_chain
                  example_address [] _ s eq_refl)
        as (b & h1 & sigs & h2 & _ & Hs & Hpresent)
  end.
  vm_compute in Hs. inversion Hs as [[Hsigs Hh2]].
  destruct (Hpresent _ _ (JInt 1768000000) (eq_sym Hsigs) eq_refl eq_refl)
    as (d & Hd & Hla).
  rewrite Hla. vm_compute in Hd. inversion Hd. reflexivity.
Defined.

Lemma summary_posts_three_requests_witness :
  exists s hf a b c,
    get_wallet_summary plain_runtime default_settings example_chain example_address []
    = (Ok s, hf)
    /\ hf = (repeat (balance_request example_address) a
               ++ repeat (signatures_request example_address 1) b
               ++ repeat (signatures_request example_address 1000) c)%list.
Proof.
  eexists. eexists.
  match goal with
  | |- exists a b c, get_wallet_summary ?rt ?st ?net ?ad ?h = (Ok ?s, ?hf) /\ _ =>
      assert (Hrun : get_wallet_summary rt st net ad h = (Ok s, hf))
        by (vm_compute; reflexivity);
      destruct (summary_posts_three_requests rt st net ad h hf s Hrun)
        as (a & b & c & _ & _ & _ & Hhf)
  end.
  exists a, b, c. split; [exact Hrun | exact Hhf].
Defined.

Lemma transactions_fetch_in_order_witness :
  snd (get_wallet_transactions plain_runtime default_settings flaky_chain
         example_address 10 [])
  = [signatures_request example_address 10;
     details_request (JStr "S1"); details_request (JStr "S2");
     details_request (JStr "S3")].
Proof.
  apply (proj2 (transactions_fetch_in_order plain_runtime default_settings flaky_chain
                  example_address 10 [] [signatures_request example_address 10]
                  [signature_entry "S1" 3 (JInt 1768000000);
                   signature_entry "S2" 2 (JInt 1767000000);
                   signature_entry "S3" 1 JNull]
                  ltac:(cbn; lia)
                  ltac:(intros h' p; unfold flaky_chain;
                        destruct (String.eqb (method p) "getSignaturesForAddress");
                        [reflexivity|];
                        destruct (String.eqb (method p) "getTransaction");
                        [destruct (String.eqb (first_param p) "S2")|]; reflexivity)
                  eq_refl eq_refl eq_refl)).
Defined.

(** An entry without ["blockTime"] and details without ["fee"]: the epoch
    and 0. *)
Lemma built_record_fields_witness :
  exists t,
    build_transaction plain_runtime
      (JObj [("signature", JStr "S1"); ("slot", JInt 7)]) (JStr "S1")
      (JObj [("meta", JObj [("err", JNull)])]) = Ok t
    /\ signature t = "S1" /\ slot t = 7 /\ fee t = 0
    /\ block_time t = {| unix_micros := 0 |}.
Proof.
  eexists. split; [vm_compute; reflexivity|].
  match goal with
  | |- signature ?t = _ /\ _ =>
      destruct (built_record_fields plain_runtime
                  (JObj [("signature", JStr "S1"); ("slot", JInt 7)]) (JStr "S1")
                  (JObj [("meta", JObj [("err", JNull)])]) t eq_refl)
        as (sitems & ditems & Hs & Hd & Hsg & _ & Hslot & _ & Hfee & _ & Hbt & _)
  end.
  inversion Hs. inversion Hd. subst sitems ditems.
  split; [inversion Hsg; reflexivity|].
  split; [apply (Hslot 7 eq_refl)|].
  split; [apply (Hfee _ eq_refl eq_refl)|].
  assert (Hepoch := Hbt (or_introl eq_refl)). vm_compute in Hepoch.
  inversion Hepoch. reflexivity.
Defined.

Lemma non_dict_entry_aborts_witness :
  get_wallet_transactions plain_runtime default_settings malformed_chain
    example_address 10 []
  = (Raise (HTTPException 500
              "Internal server error: 'str' object has no attribute 'get'"),
     [signatures_request example_address 10; details_request (JStr "S1")]).
Proof.
  apply (non_dict_entry_aborts plain_runtime default_settings malformed_chain
           example_address 10 [] [signatures_request example_address 10]
           [signature_entry "S1" 3 (JInt 1768000000)]
           [signature_entry "S3" 1 JNull] (JStr "S2")
           eq_refl eq_refl eq_refl eq_refl).
Defined.

Lemma validate_address_accepts_witness :
  validate_address example_address = Ok example_address.
Proof.
  apply (proj2 (proj1 (validate_address_accepts example_address))).
  split; [vm_compute; split; discriminate | reflexivity].
Defined.

Lemma validator_refines_route_check_witness :
  validate_address zero_address
  = Raise (ValueError "Invalid Solana address: contains non-base58 characters").
Proof.
  apply (proj2 (validator_refines_route_check zero_address)); reflexivity.
Defined.

(** The largest 64-bit balance. *)
Lemma lamports_to_sol_returns_witness :
  exists x, lamports_to_sol 18446744073709551615 = Ok x /\ x <> S754_nan.
Proof.
  destruct (lamports_to_sol_returns 18446744073709551615) as (x & Hx & _ & Hnan).
  - split; reflexivity.
  - exists x. split; assumption.
Defined.

(** ** The limit of a lookup and the origin of the records *)

Section Lookups.

Variable rt : Runtime.
Variable settings : Settings.
Variable net : network.

(** With retries configured a call posts at least once. *)
Lemma call_rpc_posts_once (method : string) (params : list json) (h : history) :
  0 < max_retries settings ->
  exists n,
    (1 <= n <= Z.to_nat (max_retries settings))%nat
    /\ snd (_call_rpc rt settings net method params h)
       = (h ++ repeat (rpc_request method params) n)%list.
Proof.
  intros Hpos. unfold _call_rpc.
  set (p := rpc_request method params).
  destruct (Z.to_nat (max_retries settings)) as [|k] eqn:Hk; [lia|].
  cbn [rpc_loop]. destruct (Z.ltb_spec 0 (max_retries settings)); [|lia].
  assert (Hone : exists n : nat, (1 <= n <= S k)%nat
                   /\ (h ++ [p] = h ++ repeat p n)%list).
  { exists 1%nat. split; [lia | reflexivity]. }
  assert (Hrec : exists n : nat, (1 <= n <= S k)%nat
                   /\ snd (rpc_loop rt settings net k (0 + 1) p (h ++ [p])%list)
                      = (h ++ repeat p n)%list).
  { destruct (rpc_loop_posts rt settings net p k (0 + 1) (h ++ [p])%list)
      as (n & Hh & Hn & _ & _).
    exists (S n). split; [lia|]. rewrite Hh, history_snoc_repeat. reflexivity. }
  destruct (net h p); cbn [snd]; try exact Hone;
    (destruct (0 + 1 >=? max_retries settings); cbn [snd]; [exact Hone | exact Hrec]).
Qed.

(** X21. The limits the route admits are the limits the client admits:
    for a limit from 1 to [MAX_TRANSACTION_LIMIT], the default among
    them, [get_signatures] posts the request carrying that very limit, at
    least once; for any other limit it posts nothing and raises "Limit
    must be between 1 and 1000". *)
Theorem get_signatures_limit_bounds (address : string) (limit : Z) (h : history) :
  address <> "" ->
  0 < max_retries settings ->
  1 <= DEFAULT_TRANSACTION_LIMIT <= MAX_TRANSACTION_LIMIT
  /\ (1 <= limit <= MAX_TRANSACTION_LIMIT ->
      exists n,
        (1 <= n <= Z.to_nat (max_retries settings))%nat
        /\ snd (get_signatures rt settings net address limit h)
           = (h ++ repeat (signatures_request address limit) n)%list)
  /\ (limit < 1 \/ MAX_TRANSACTION_LIMIT < limit ->
      get_signatures rt settings net address limit h
      = (Raise (SolanaRPCError "Limit must be between 1 and 1000"), h)).
Proof.
  intros Hne Hpos. unfold MAX_TRANSACTION_LIMIT, DEFAULT_TRANSACTION_LIMIT.
  split; [lia|]. unfold get_signatures.
  destruct (String.eqb_spec address "") as [?|_]; [contradiction|].
  split; intros Hlim.
  - destruct (Z.ltb_spec limit 1); [lia|].
    destruct (Z.gtb_spec limit 1000); [lia|]. cbn [orb].
    destruct (call_rpc_posts_once "getSignaturesForAddress"
                [JStr address; JObj [("limit", JInt limit)]] h Hpos) as (n & Hn & Hh).
    exists n. split; [exact Hn|].
    unfold reraise_as_rpc_error, try_except, bind.
    destruct (_call_rpc rt settings net "getSignaturesForAddress"
                [JStr address; JObj [("limit", JInt limit)]] h) as [[v|e] h1];
      cbn [snd] in *; [exact Hh|].
    destruct (negb (is_SolanaRPCError e)); exact Hh.
  - assert (((limit <? 1) || (limit >? 1000)) = true) as ->; [|reflexivity].
    destruct (Z.ltb_spec limit 1), (Z.gtb_spec limit 1000); cbn; try reflexivity; lia.
Qed.

Lemma build_transaction_signature (sig_data sg tx_details : json) (t : Transaction) :
  build_transaction rt sig_data sg tx_details = Ok t -> sg = JStr (signature t).
Proof.
  intros H. unfold build_transaction in H.
  apply obind_ok_inv in H. destruct H as (meta & _ & H).
  apply obind_ok_inv in H. destruct H as (f & _ & H).
  apply obind_ok_inv in H. destruct H as (err & _ & H).
  cbv zeta in H.
  apply obind_ok_inv in H. destruct H as (bt & _ & H).
  apply obind_ok_inv in H. destruct H as (btd & _ & H).
  apply obind_ok_inv in H. destruct H as (sl & _ & H).
  apply obind_ok_inv in H. destruct H as (arg & _ & H).
  destruct arg as [d|]; [|discriminate].
  apply new_Transaction_fields in H. tauto.
Qed.

(** A record an iteration appends carries the signature of its entry. *)
Lemma process_entry_appends (sig_data : json) (h h1 : history) (t : Transaction) :
  process_entry rt settings net sig_data h = (Ok (Some t), h1) ->
  entry_signature sig_data = JStr (signature t).
Proof.
  unfold process_entry, try_except.
  destruct (entry_body rt settings net sig_data h) as [[r|e] h2] eqn:Hbody.
  - intros H. inversion H. subst. clear H.
    unfold entry_body in Hbody.
    apply bind_ok_inv in Hbody. destruct Hbody as (sg & h3 & Hget & Hrest).
    apply lift_ok_inv in Hget. destruct Hget as [Hget ->].
    assert (Hsg : sg = entry_signature sig_data).
    { destruct sig_data; try discriminate Hget. cbn in Hget. inversion Hget.
      reflexivity. }
    destruct (negb (truthy sg)); [discriminate Hrest|].
    apply bind_ok_inv in Hrest. destruct Hrest as (d & h4 & _ & Hrest).
    destruct d; try discriminate Hrest;
      (apply bind_ok_inv in Hrest; destruct Hrest as (t' & h5 & Hb & Hret);
       apply lift_ok_inv in Hb; destruct Hb as [Hb _];
       inversion Hret; subst;
       apply build_transaction_signature in Hb; congruence).
  - unfold bind, lift, ret.
    destruct (py_get sig_data "signature" JNull); discriminate.
Qed.

Lemma process_entries_origin (entries : list json) :
  forall acc h txs hf,
    process_entries rt settings net entries acc h = (Ok txs, hf) ->
    forall t, In t txs ->
      In t acc \/ exists sd, In sd entries /\ entry_signature sd = JStr (signature t).
Proof.
  induction entries as [|sd entries IH]; intros acc h txs hf H t Ht.
  - inversion H. subst. left. exact Ht.
  - cbn [process_entries] in H. apply bind_ok_inv in H.
    destruct H as (r & h1 & Hstep & H).
    destruct (IH _ _ _ _ H t Ht) as [Hin|(sd' & Hin & Hsg)].
    + destruct r as [t'|]; [|left; exact Hin].
      apply in_app_or in Hin. destruct Hin as [Hin|[<-|[]]]; [left; exact Hin|].
      right. exists sd. split; [left; reflexivity|].
      eapply process_entry_appends. exact Hstep.
    + right. exists sd'. split; [right; exact Hin | exact Hsg].
Qed.

(** X22. The route invents no record: every record of a returned list
    carries the signature string of one of the entries of the signature
    list the lookup returned. *)
Theorem records_come_from_entries (address : string) (limit : Z) (h hf : history)
    (r : TransactionList) (t : Transaction) :
  get_wallet_transactions rt settings net address limit h = (Ok r, hf) ->
  In t (transactions r) ->
  exists h1 entries sd,
    get_signatures rt settings net address limit h = (Ok (JList entries), h1)
    /\ In sd entries
    /\ entry_signature sd = JStr (signature t).
Proof.
  unfold get_wallet_transactions.
  destruct (address_rejected address); [discriminate|].
  intros H Ht. apply try_except_ok_inv in H;
    [|intros e h1; destruct e; eexists; reflexivity].
  apply bind_ok_inv in H. destruct H as (sigs & h1 & Hs & H).
  destruct (truthy sigs) eqn:Htr; cbn [negb] in H.
  - apply bind_ok_inv in H. destruct H as (entries & h2 & Hit & H).
    apply lift_ok_inv in Hit. destruct Hit as [Hit ->].
    apply bind_ok_inv in H. destruct H as (txs & h3 & Hloop & H).
    apply lift_ok_inv in H. destruct H as [Hnew ->].
    unfold new_TransactionList in Hnew.
    destruct (validate_address address); [|discriminate].
    inversion Hnew. subst r. cbn [transactions] in Ht.
    destruct (process_entries_origin _ _ _ _ _ Hloop t Ht) as [[]|(sd & Hin & Hsg)].
    destruct sigs as [| | | |s|l|items]; try discriminate Hit; cbn in Hit;
      inversion Hit; subst entries.
    + exfalso. apply in_map_iff in Hin. destruct Hin as (c & <- & _).
      discriminate Hsg.
    + exists h1, l, sd. auto.
    + exfalso. apply in_map_iff in Hin. destruct Hin as (kv & <- & _).
      discriminate Hsg.
  - apply lift_ok_inv in H. destruct H as [Hnew ->].
    unfold new_TransactionList in Hnew.
    destruct (validate_address address); [|discriminate].
    inversion Hnew. subst r. destruct Ht.
Qed.

End Lookups.

Lemma get_signatures_limit_bounds_witness :
  get_signatures plain_runtime default_settings example_chain example_address 1001 []
  = (Raise (SolanaRPCError "Limit must be between 1 and 1000"), [])
  /\ exists n,
       snd (get_signatures plain_runtime default_settings example_chain
              example_address 10 [])
       = repeat (signatures_request example_address 10) n.
Proof.
  split.
  - apply (proj2 (proj2 (get_signatures_limit_bounds plain_runtime default_settings
                           example_chain example_address 1001 []
                           ltac:(discriminate) ltac:(cbn; lia)))).
    right. reflexivity.
  - destruct (proj1 (proj2 (get_signatures_limit_bounds plain_runtime default_settings
                              example_chain example_address 10 []
                              ltac:(discriminate) ltac:(cbn; lia)))
                ltac:(unfold MAX_TRANSACTION_LIMIT; lia)) as (n & _ & Hh).
    exists n. exact Hh.
Defined.

Lemma records_come_from_entries_witness :
  exists r hf t,
    get_wallet_transactions plain_runtime default_settings flaky_chain
      example_address 10 [] = (Ok r, hf)
    /\ In t (transactions r)
    /\ exists sd, entry_signature sd = JStr (signature t).
Proof.
  eexists. eexists. eexists.
  match goal with
  | |- get_wallet_transactions ?rt ?st ?net ?ad ?l ?h = (Ok ?r, ?hf) /\ _ =>
      assert (Hrun : get_wallet_transactions rt st net ad l h = (Ok r, hf))
        by (vm_compute; reflexivity)
  end.
  split; [exact Hrun|]. split; [left; reflexivity|].
  destruct (records_come_from_entries _ _ _ _ _ _ _ _ _ Hrun (or_introl eq_refl))
    as (h1 & entries & sd & _ & _ & Hsg).
  exists sd. exact Hsg.
Defined.
